(** * AWS Toolkit adapters: notification store, Application Composer init
      handler, IoT policy node

    A shallow embedding of three adapters of the extension:

    - [src/mynah/stores/notificationsInfoStore.ts]: [NotificationInfoStore],
      a read-modify-write wrapper around two host [Memento] objects;
    - [src/applicationcomposer/messageHandlers/initMessageHandler.ts]: the
      handler answering the webview's INIT request;
    - [IotPolicyWithVersionsNode.getChildren], known here through its test
      [src/test/iot/explorer/iotPolicyNode.test.ts].

    The [async] functions of the source are written in a promise monad: a
    computation takes the state of the host and either fulfils with a value
    or rejects with the error that was thrown, and in both cases hands back
    the state the host was left in.  [await p; rest] is [x ← p; rest]: a
    rejection of [p] skips [rest], which is how an [async] function without
    [try]/[catch] behaves. *)

From Stdlib Require Import Ascii String.
From stdpp Require Import gmap strings list.

Local Open Scope string_scope.
Local Open Scope list_scope.
Local Open Scope Z_scope.

(** ** Promises over a host state *)

(** The value carried by a JavaScript exception.  Only its identity matters
    here. *)
Definition Error : Type := string.

Inductive Settled (W A : Type) : Type :=
| Fulfilled (a : A) (w : W)
| Rejected (e : Error) (w : W).
Arguments Fulfilled {W A} a w.
Arguments Rejected {W A} e w.

Definition Promise (W A : Type) : Type := W → Settled W A.

Definition resolve {W A} (a : A) : Promise W A := λ w, Fulfilled a w.

Definition await {W A B} (p : Promise W A) (k : A → Promise W B) : Promise W B :=
  λ w, match p w with
       | Fulfilled a w' => k a w'
       | Rejected e w' => Rejected e w'
       end.

#[global] Instance promise_ret {W} : MRet (Promise W) := λ A, @resolve W A.
#[global] Instance promise_bind {W} : MBind (Promise W) := λ A B k p, await p k.

(** The host state a settled promise leaves behind. *)
Definition world_of {W A} (s : Settled W A) : W :=
  match s with
  | Fulfilled _ w => w
  | Rejected _ w => w
  end.

(** ** The notification info store *)

Module Notifications.

(** [export const StorageKey = 'NOTIFICATION_INFO_'] *)
Definition StorageKey : string := "NOTIFICATION_INFO_".

(** [interface NotificationInfoRecord].  The two [number] fields only ever
    hold integers (a counter starting at 0 and a millisecond timestamp);
    they are integers here, exact as long as they stay below 2^53. *)
Record NotificationInfoRecord : Type := {
  notificationName : string;
  viewsCounter : Z;
  lastSeen : Z;
  muted : bool;
}.

(** The assignments [record.muted = ...], [record.viewsCounter = ...] and
    [record.lastSeen = ...]. *)
Definition set_muted (b : bool) (r : NotificationInfoRecord) : NotificationInfoRecord :=
  {| notificationName := notificationName r; viewsCounter := viewsCounter r;
     lastSeen := lastSeen r; muted := b |}.

Definition set_viewsCounter (n : Z) (r : NotificationInfoRecord) : NotificationInfoRecord :=
  {| notificationName := notificationName r; viewsCounter := n;
     lastSeen := lastSeen r; muted := muted r |}.

Definition set_lastSeen (t : Z) (r : NotificationInfoRecord) : NotificationInfoRecord :=
  {| notificationName := notificationName r; viewsCounter := viewsCounter r;
     lastSeen := t; muted := muted r |}.

(** *** The host: mementos, clock, and what the host does at each call

    [Memento] is an interface of the editor ([get] and [update] by string
    key); the store receives two of them in its constructor.  A memento is
    a handle, and the host keeps the entries of each one.  The two handles
    of a store may be the same memento.

    What the host is taken to do:
    - entries are values: the memento stores and hands out copies (the API
      persists values as JSON), so what [get] returns is what [update] was
      last given under that key, and the object a method assigns to is its
      own copy until it is written back.  The memento that keeps the
      objects themselves is the subject of [SharedRecords] below;
    - every call into the host takes some time and may throw.  Both are
      the host's choice, so the state carries a [script]: the host consumes
      one [Tick] per call, which says how long the call took and whether
      it threw.  When the script is exhausted calls are instantaneous and
      succeed;
    - the clock read by [new Date()] only moves forward. *)

Definition Memento : Type := nat.

Inductive HostCall : Type :=
| CallGet (m : Memento) (key : string)
| CallUpdate (m : Memento) (key : string) (value : NotificationInfoRecord).

Definition call_memento (c : HostCall) : Memento :=
  match c with CallGet m _ => m | CallUpdate m _ _ => m end.

Definition call_key (c : HostCall) : string :=
  match c with CallGet _ k => k | CallUpdate _ k _ => k end.

Record Tick : Type := {
  elapsed : N;
  fault : option Error;
}.

Record World : Type := {
  contents : Memento → gmap string NotificationInfoRecord;
  clock : Z;
  script : list Tick;
  trace : list HostCall;
}.

Definition quiet : Tick := {| elapsed := 0; fault := None |}.

(** Enter the host for call [c]: log it, consume a tick, advance the clock. *)
Definition enter (c : HostCall) (w : World) : Tick * World :=
  let t := hd quiet (script w) in
  (t, {| contents := contents w;
         clock := clock w + Z.of_N (elapsed t);
         script := tl (script w);
         trace := trace w ++ [c] |}).

Definition store_entry (m : Memento) (key : string) (v : NotificationInfoRecord)
    (w : World) : World :=
  {| contents := λ m', if decide (m' = m) then <[key := v]> (contents w m')
                       else contents w m';
     clock := clock w; script := script w; trace := trace w |}.

(** [memento.get(key)] *)
Definition memento_get (m : Memento) (key : string)
    : Promise World (option NotificationInfoRecord) :=
  λ w, let '(t, w1) := enter (CallGet m key) w in
       match fault t with
       | Some e => Rejected e w1
       | None => Fulfilled (contents w1 m !! key) w1
       end.

(** [memento.update(key, value)] *)
Definition memento_update (m : Memento) (key : string) (v : NotificationInfoRecord)
    : Promise World unit :=
  λ w, let '(t, w1) := enter (CallUpdate m key v) w in
       match fault t with
       | Some e => Rejected e w1
       | None => Fulfilled () (store_entry m key v w1)
       end.

(** [new Date().getTime()] *)
Definition Date_getTime : Promise World Z := λ w, Fulfilled (clock w) w.

(** *** [class NotificationInfoStore] *)

Record NotificationInfoStore : Type := {
  globalStore : Memento;
  workplaceStore : Memento;
}.

Section Methods.
Variable this : NotificationInfoStore.

Definition addRecordToWorkplaceStore (record : NotificationInfoRecord)
    : Promise World unit :=
  memento_update (workplaceStore this) (StorageKey +:+ notificationName record) record.

Definition addRecordToGlobalStore (record : NotificationInfoRecord)
    : Promise World unit :=
  memento_update (globalStore this) (StorageKey +:+ notificationName record) record.

Definition getEmptyRecord (notificationName : string) : NotificationInfoRecord :=
  {| notificationName := notificationName;
     viewsCounter := 0;
     lastSeen := 0;
     muted := false |}.

Definition getRecordFromGlobalStore (notificationName : string)
    : Promise World (option NotificationInfoRecord) :=
  memento_get (globalStore this) (StorageKey +:+ notificationName).

Definition getRecordFromWorkplaceStore (notificationName : string)
    : Promise World (option NotificationInfoRecord) :=
  memento_get (workplaceStore this) (StorageKey +:+ notificationName).

(** [if (record === undefined) { record = this.getEmptyRecord(name) }] *)
Definition orEmpty (notificationName : string)
    (record : option NotificationInfoRecord) : NotificationInfoRecord :=
  match record with
  | None => getEmptyRecord notificationName
  | Some r => r
  end.

Definition setMuteStatusInWorkplaceStore (notificationName : string) (isMuted : bool)
    : Promise World unit :=
  record ← getRecordFromWorkplaceStore notificationName;
  let record := orEmpty notificationName record in
  let record := set_muted isMuted record in
  memento_update (workplaceStore this) (StorageKey +:+ notificationName) record.

Definition setMuteStatusInGlobalStore (notificationName : string) (isMuted : bool)
    : Promise World unit :=
  record ← getRecordFromGlobalStore notificationName;
  let record := orEmpty notificationName record in
  let record := set_muted isMuted record in
  memento_update (globalStore this) (StorageKey +:+ notificationName) record.

Definition addNewViewToNotificationInWorkplaceStore (notificationName : string)
    : Promise World unit :=
  record ← getRecordFromWorkplaceStore notificationName;
  let record := orEmpty notificationName record in
  let record := set_viewsCounter (viewsCounter record + 1) record in
  now ← Date_getTime;
  let record := set_lastSeen now record in
  memento_update (workplaceStore this) (StorageKey +:+ notificationName) record.

Definition addNewViewToNotificationInGlobalStore (notificationName : string)
    : Promise World unit :=
  record ← getRecordFromGlobalStore notificationName;
  let record := orEmpty notificationName record in
  let record := set_viewsCounter (viewsCounter record + 1) record in
  now ← Date_getTime;
  let record := set_lastSeen now record in
  memento_update (globalStore this) (StorageKey +:+ notificationName) record.

End Methods.

(** *** The eight public methods as data

    Statements about "every store operation" quantify over [StoreOp]. *)

Inductive StoreOp : Type :=
| AddRecordToWorkplaceStore (record : NotificationInfoRecord)
| AddRecordToGlobalStore (record : NotificationInfoRecord)
| SetMuteStatusInWorkplaceStore (notificationName : string) (isMuted : bool)
| SetMuteStatusInGlobalStore (notificationName : string) (isMuted : bool)
| AddNewViewToNotificationInWorkplaceStore (notificationName : string)
| AddNewViewToNotificationInGlobalStore (notificationName : string)
| GetRecordFromGlobalStore (notificationName : string)
| GetRecordFromWorkplaceStore (notificationName : string).

(** What a method's promise fulfils with: [void], or the record read. *)
Inductive Returned : Type :=
| Void
| Record_ (r : option NotificationInfoRecord).

Definition void (p : Promise World unit) : Promise World Returned :=
  _ ← p; mret Void.

Definition run (this : NotificationInfoStore) (op : StoreOp) : Promise World Returned :=
  match op with
  | AddRecordToWorkplaceStore r => void (addRecordToWorkplaceStore this r)
  | AddRecordToGlobalStore r => void (addRecordToGlobalStore this r)
  | SetMuteStatusInWorkplaceStore n b => void (setMuteStatusInWorkplaceStore this n b)
  | SetMuteStatusInGlobalStore n b => void (setMuteStatusInGlobalStore this n b)
  | AddNewViewToNotificationInWorkplaceStore n =>
      void (addNewViewToNotificationInWorkplaceStore this n)
  | AddNewViewToNotificationInGlobalStore n =>
      void (addNewViewToNotificationInGlobalStore this n)
  | GetRecordFromGlobalStore n => r ← getRecordFromGlobalStore this n; mret (Record_ r)
  | GetRecordFromWorkplaceStore n => r ← getRecordFromWorkplaceStore this n; mret (Record_ r)
  end.

(** The notification name a call is about, and the memento it addresses. *)
Definition op_name (op : StoreOp) : string :=
  match op with
  | AddRecordToWorkplaceStore r | AddRecordToGlobalStore r => notificationName r
  | SetMuteStatusInWorkplaceStore n _ | SetMuteStatusInGlobalStore n _
  | AddNewViewToNotificationInWorkplaceStore n | AddNewViewToNotificationInGlobalStore n
  | GetRecordFromGlobalStore n | GetRecordFromWorkplaceStore n => n
  end.

Definition op_memento (this : NotificationInfoStore) (op : StoreOp) : Memento :=
  match op with
  | AddRecordToWorkplaceStore _ | SetMuteStatusInWorkplaceStore _ _
  | AddNewViewToNotificationInWorkplaceStore _ | GetRecordFromWorkplaceStore _ =>
      workplaceStore this
  | AddRecordToGlobalStore _ | SetMuteStatusInGlobalStore _ _
  | AddNewViewToNotificationInGlobalStore _ | GetRecordFromGlobalStore _ =>
      globalStore this
  end.

(** How many times a method enters the host when nothing fails: one call
    for the plain reads and writes, a [get] and an [update] for the
    read-modify-write methods. *)
Definition host_calls (op : StoreOp) : nat :=
  match op with
  | AddRecordToWorkplaceStore _ | AddRecordToGlobalStore _
  | GetRecordFromGlobalStore _ | GetRecordFromWorkplaceStore _ => 1%nat
  | _ => 2%nat
  end.

(** *** Reading the script *)

(** No call of the script fails. *)
Definition faultless (w : World) : bool :=
  forallb (λ t, match fault t with None => true | Some _ => false end) (script w).

(** The first failing call among the next [n]: its position and the error
    the host throws there. *)
Fixpoint first_fault (n : nat) (s : list Tick) : option (nat * Error) :=
  match n, s with
  | S n', t :: s' =>
      match fault t with
      | Some e => Some (0%nat, e)
      | None => prod_map S id <$> first_fault n' s'
      end
  | _, _ => None
  end.

(** *** Footprints

    [within m k w w']: going from [w] to [w'] the host was only entered for
    key [k] of memento [m], and every other entry reads as before. *)
Definition on_entry (m : Memento) (k : string) (c : HostCall) : Prop :=
  call_memento c = m ∧ call_key c = k.

Definition within (m : Memento) (k : string) (w w' : World) : Prop :=
  (∃ calls, trace w' = trace w ++ calls ∧ Forall (on_entry m k) calls) ∧
  (∀ m' k', (m', k') ≠ (m, k) → contents w' m' !! k' = contents w m' !! k').

Definition confined {A} (m : Memento) (k : string) (p : Promise World A) : Prop :=
  ∀ w, within m k w (world_of (p w)).

(** *** Sample hosts, for running the methods *)

Definition sample_store : NotificationInfoStore :=
  {| globalStore := 0%nat; workplaceStore := 1%nat |}.

Definition fresh_world : World :=
  {| contents := λ _, ∅; clock := 1700000000000;
     script := [ {| elapsed := 3; fault := None |}; {| elapsed := 4; fault := None |} ];
     trace := [] |}.

Definition sample_record : NotificationInfoRecord :=
  {| notificationName := "welcome"; viewsCounter := 7; lastSeen := 1699999990000;
     muted := true |}.

(** A host where [sample_record] is already in the workplace memento and in
    the global one. *)
Definition seen_world : World :=
  {| contents := λ _, {[ StorageKey +:+ "welcome" := sample_record ]};
     clock := 1700000000000; script := []; trace := [] |}.

(** A host whose second call throws. *)
Definition failing_world : World :=
  {| contents := λ _, ∅; clock := 1700000000000;
     script := [ {| elapsed := 2; fault := None |};
                 {| elapsed := 5; fault := Some "QuotaExceededError" |} ];
     trace := [] |}.

(** *** Keys and names

    The invariant the methods keep: a record found under the key of a name
    carries that name. *)
Definition well_keyed (w : World) : Prop :=
  ∀ m n r, contents w m !! (StorageKey +:+ n) = Some r → notificationName r = n.

(** [triple I p Q]: started in a state satisfying [I], the promise [p]
    settles in a state satisfying [I], and the value it fulfils with
    satisfies [Q]. *)
Definition triple {A} (I : World → Prop) (p : Promise World A) (Q : A → Prop) : Prop :=
  ∀ w, I w →
       match p w with
       | Fulfilled a w' => I w' ∧ Q a
       | Rejected _ w' => I w'
       end.

(** A caller showing a notification [n] times in a row. *)
Fixpoint viewTimes (this : NotificationInfoStore) (notificationName : string) (n : nat)
    : Promise World unit :=
  match n with
  | O => mret ()
  | S n' =>
      _ ← addNewViewToNotificationInWorkplaceStore this notificationName;
      viewTimes this notificationName n'
  end.

End Notifications.

(** ** The notification info store on a memento that keeps references

    The methods assign to the record that [get] returned
    ([record.muted = isMuted]).  In [Notifications] an entry is a value, as
    on a memento that stores and hands out copies.  A memento may instead
    keep the object it was given and hand that same object back; one record
    object can then sit under several keys, and an assignment to it shows
    under all of them.  Here records are objects in a heap and a memento
    binds keys to references; the methods are the same methods, with the
    assignments done in place. *)

Module SharedRecords.
Import Notifications.

(** A reference to a record object. *)
Definition Ref : Type := nat.

Inductive HostCall : Type :=
| CallGet (m : Memento) (key : string)
| CallUpdate (m : Memento) (key : string) (value : Ref).

Definition call_memento (c : HostCall) : Memento :=
  match c with CallGet m _ => m | CallUpdate m _ _ => m end.

Definition call_key (c : HostCall) : string :=
  match c with CallGet _ k => k | CallUpdate _ k _ => k end.

(** [objects] gives the fields of every record object; the references
    below [allocated] are the objects that exist.  [bindings] is what each
    memento holds under each key.  Clock, script and trace are as in
    [Notifications]. *)
Record World : Type := {
  objects : Ref → NotificationInfoRecord;
  allocated : nat;
  bindings : Memento → gmap string Ref;
  clock : Z;
  script : list Tick;
  trace : list HostCall;
}.

(** What [get(key)] of memento [m] reads: the fields of the bound object. *)
Definition entry (w : World) (m : Memento) (key : string) : option NotificationInfoRecord :=
  objects w <$> bindings w m !! key.

Definition enter (c : HostCall) (w : World) : Tick * World :=
  let t := hd quiet (script w) in
  (t, {| objects := objects w; allocated := allocated w; bindings := bindings w;
         clock := clock w + Z.of_N (elapsed t);
         script := tl (script w);
         trace := trace w ++ [c] |}).

Definition bind_entry (m : Memento) (key : string) (o : Ref) (w : World) : World :=
  {| objects := objects w; allocated := allocated w;
     bindings := λ m', if decide (m' = m) then <[key := o]> (bindings w m')
                       else bindings w m';
     clock := clock w; script := script w; trace := trace w |}.

(** [memento.get(key)]: the object that is bound, not a copy of it. *)
Definition memento_get (m : Memento) (key : string) : Promise World (option Ref) :=
  λ w, let '(t, w1) := enter (CallGet m key) w in
       match fault t with
       | Some e => Rejected e w1
       | None => Fulfilled (bindings w1 m !! key) w1
       end.

(** [memento.update(key, value)]: binds the object it is given. *)
Definition memento_update (m : Memento) (key : string) (o : Ref) : Promise World unit :=
  λ w, let '(t, w1) := enter (CallUpdate m key o) w in
       match fault t with
       | Some e => Rejected e w1
       | None => Fulfilled () (bind_entry m key o w1)
       end.

(** [new Date().getTime()] *)
Definition Date_getTime : Promise World Z := λ w, Fulfilled (clock w) w.

(** An object literal [{ ... }]: a new object. *)
Definition new_object (r : NotificationInfoRecord) : Promise World Ref :=
  λ w, Fulfilled (allocated w)
         {| objects := λ o, if decide (o = allocated w) then r else objects w o;
            allocated := S (allocated w); bindings := bindings w;
            clock := clock w; script := script w; trace := trace w |}.

(** Reading a field, [record.f]. *)
Definition field {A} (record : Ref) (f : NotificationInfoRecord → A) : Promise World A :=
  λ w, Fulfilled (f (objects w record)) w.

(** Assigning a field, [record.f = v], given as the setter of [f]. *)
Definition assign (record : Ref) (set : NotificationInfoRecord → NotificationInfoRecord)
    : Promise World unit :=
  λ w, Fulfilled ()
         {| objects := λ o, if decide (o = record) then set (objects w record)
                            else objects w o;
            allocated := allocated w; bindings := bindings w;
            clock := clock w; script := script w; trace := trace w |}.

Section Methods.
Variable this : NotificationInfoStore.

Definition addRecordToWorkplaceStore (record : Ref) : Promise World unit :=
  name ← field record notificationName;
  memento_update (workplaceStore this) (StorageKey +:+ name) record.

Definition addRecordToGlobalStore (record : Ref) : Promise World unit :=
  name ← field record notificationName;
  memento_update (globalStore this) (StorageKey +:+ name) record.

Definition getEmptyRecord (notificationName : string) : Promise World Ref :=
  new_object {| notificationName := notificationName;
                viewsCounter := 0;
                lastSeen := 0;
                muted := false |}.

Definition getRecordFromGlobalStore (notificationName : string)
    : Promise World (option Ref) :=
  memento_get (globalStore this) (StorageKey +:+ notificationName).

Definition getRecordFromWorkplaceStore (notificationName : string)
    : Promise World (option Ref) :=
  memento_get (workplaceStore this) (StorageKey +:+ notificationName).

(** [if (record === undefined) { record = this.getEmptyRecord(name) }] *)
Definition orEmpty (notificationName : string) (record : option Ref)
    : Promise World Ref :=
  match record with
  | None => getEmptyRecord notificationName
  | Some o => resolve o
  end.

Definition setMuteStatusInWorkplaceStore (notificationName : string) (isMuted : bool)
    : Promise World unit :=
  record ← getRecordFromWorkplaceStore notificationName;
  record ← orEmpty notificationName record;
  _ ← assign record (set_muted isMuted);
  memento_update (workplaceStore this) (StorageKey +:+ notificationName) record.

Definition setMuteStatusInGlobalStore (notificationName : string) (isMuted : bool)
    : Promise World unit :=
  record ← getRecordFromGlobalStore notificationName;
  record ← orEmpty notificationName record;
  _ ← assign record (set_muted isMuted);
  memento_update (globalStore this) (StorageKey +:+ notificationName) record.

Definition addNewViewToNotificationInWorkplaceStore (notificationName : string)
    : Promise World unit :=
  record ← getRecordFromWorkplaceStore notificationName;
  record ← orEmpty notificationName record;
  views ← field record viewsCounter;
  _ ← assign record (set_viewsCounter (views + 1));
  now ← Date_getTime;
  _ ← assign record (set_lastSeen now);
  memento_update (workplaceStore this) (StorageKey +:+ notificationName) record.

Definition addNewViewToNotificationInGlobalStore (notificationName : string)
    : Promise World unit :=
  record ← getRecordFromGlobalStore notificationName;
  record ← orEmpty notificationName record;
  views ← field record viewsCounter;
  _ ← assign record (set_viewsCounter (views + 1));
  now ← Date_getTime;
  _ ← assign record (set_lastSeen now);
  memento_update (globalStore this) (StorageKey +:+ notificationName) record.

End Methods.

(** The eight methods as data, as in [Notifications]; [addRecord*] takes
    the record object. *)
Inductive StoreOp : Type :=
| AddRecordToWorkplaceStore (record : Ref)
| AddRecordToGlobalStore (record : Ref)
| SetMuteStatusInWorkplaceStore (notificationName : string) (isMuted : bool)
| SetMuteStatusInGlobalStore (notificationName : string) (isMuted : bool)
| AddNewViewToNotificationInWorkplaceStore (notificationName : string)
| AddNewViewToNotificationInGlobalStore (notificationName : string)
| GetRecordFromGlobalStore (notificationName : string)
| GetRecordFromWorkplaceStore (notificationName : string).

Inductive Returned : Type :=
| Void
| Record_ (r : option Ref).

Definition void (p : Promise World unit) : Promise World Returned :=
  _ ← p; mret Void.

Definition run (this : NotificationInfoStore) (op : StoreOp) : Promise World Returned :=
  match op with
  | AddRecordToWorkplaceStore o => void (addRecordToWorkplaceStore this o)
  | AddRecordToGlobalStore o => void (addRecordToGlobalStore this o)
  | SetMuteStatusInWorkplaceStore n b => void (setMuteStatusInWorkplaceStore this n b)
  | SetMuteStatusInGlobalStore n b => void (setMuteStatusInGlobalStore this n b)
  | AddNewViewToNotificationInWorkplaceStore n =>
      void (addNewViewToNotificationInWorkplaceStore this n)
  | AddNewViewToNotificationInGlobalStore n =>
      void (addNewViewToNotificationInGlobalStore this n)
  | GetRecordFromGlobalStore n => r ← getRecordFromGlobalStore this n; mret (Record_ r)
  | GetRecordFromWorkplaceStore n => r ← getRecordFromWorkplaceStore this n; mret (Record_ r)
  end.

(** The notification name a call is about (for [addRecord*], the name the
    record carries when the call starts) and the memento it addresses. *)
Definition op_name (w : World) (op : StoreOp) : string :=
  match op with
  | AddRecordToWorkplaceStore o | AddRecordToGlobalStore o => notificationName (objects w o)
  | SetMuteStatusInWorkplaceStore n _ | SetMuteStatusInGlobalStore n _
  | AddNewViewToNotificationInWorkplaceStore n | AddNewViewToNotificationInGlobalStore n
  | GetRecordFromGlobalStore n | GetRecordFromWorkplaceStore n => n
  end.

Definition op_memento (this : NotificationInfoStore) (op : StoreOp) : Memento :=
  match op with
  | AddRecordToWorkplaceStore _ | SetMuteStatusInWorkplaceStore _ _
  | AddNewViewToNotificationInWorkplaceStore _ | GetRecordFromWorkplaceStore _ =>
      workplaceStore this
  | AddRecordToGlobalStore _ | SetMuteStatusInGlobalStore _ _
  | AddNewViewToNotificationInGlobalStore _ | GetRecordFromGlobalStore _ =>
      globalStore this
  end.

Definition faultless (w : World) : bool :=
  forallb (λ t, match fault t with None => true | Some _ => false end) (script w).

(** [within m k w w']: going from [w] to [w'] the host was only entered for
    key [k] of memento [m]; every other key, in every memento, is bound to
    the object it was bound to; and no object that existed has changed,
    except possibly the one that was bound to [k] in [m]. *)
Definition on_entry (m : Memento) (k : string) (c : HostCall) : Prop :=
  call_memento c = m ∧ call_key c = k.

Definition within (m : Memento) (k : string) (w w' : World) : Prop :=
  (∃ calls, trace w' = trace w ++ calls ∧ Forall (on_entry m k) calls) ∧
  (∀ m' k', (m', k') ≠ (m, k) → bindings w' m' !! k' = bindings w m' !! k') ∧
  (∀ o, (o < allocated w)%nat → bindings w m !! k ≠ Some o → objects w' o = objects w o).

(** Sample hosts: one record object, [sample_record], bound nowhere; and
    the same object bound under its key in every memento. *)
Definition unbound_world : World :=
  {| objects := λ _, sample_record; allocated := 1; bindings := λ _, ∅;
     clock := 1700000000000; script := []; trace := [] |}.

Definition aliased_world : World :=
  {| objects := λ _, sample_record; allocated := 1;
     bindings := λ _, {[ StorageKey +:+ "welcome" := 0%nat ]};
     clock := 1700000000000; script := []; trace := [] |}.

End SharedRecords.

(** ** The Application Composer init handler *)

Module Composer.

(** The values the response message holds.  [MessageType] and [Command] are
    enums declared in [applicationcomposer/types], which is not part of the
    sources at hand: a member is kept symbolically, by enum and member
    name. *)
Inductive JsValue : Type :=
| JsString (s : string)
| JsBoolean (b : bool)
| JsEnumMember (enum member : string).

(** An object literal: its properties in source order. *)
Definition JsObject : Type := list (string * JsValue).

Fixpoint field (k : string) (o : JsObject) : option JsValue :=
  match o with
  | [] => None
  | (k', v) :: o' => if decide (k' = k) then Some v else field k o'
  end.

Definition MessageType_RESPONSE : JsValue := JsEnumMember "MessageType" "RESPONSE".
Definition Command_INIT : JsValue := JsEnumMember "Command" "INIT".

(** The part of [FeatureAuthState] the handler reads.  The states are string
    literals. *)
Record FeatureAuthState : Type := {
  codewhispererChat : string;
}.

Definition WebviewPanel : Type := nat.

(** The part of [WebviewContext] the handler reads. *)
Record WebviewContext : Type := {
  defaultTemplatePath : string;
  panel : WebviewPanel;
}.

(** The host: how [getChatAuthState(AuthUtil.instance)] settles, and the
    messages posted to each panel's webview so far, oldest first. *)
Record Host : Type := {
  chatAuthState : Error + FeatureAuthState;
  outbox : list (WebviewPanel * JsObject);
}.

Definition getChatAuthState : Promise Host FeatureAuthState :=
  λ h, match chatAuthState h with
       | inl e => Rejected e h
       | inr s => Fulfilled s h
       end.

(** [panel.webview.postMessage(message)]; the handler does not wait for the
    thenable it returns. *)
Definition postMessage (p : WebviewPanel) (message : JsObject) : Promise Host unit :=
  λ h, Fulfilled () {| chatAuthState := chatAuthState h;
                       outbox := outbox h ++ [(p, message)] |}.

Section Handler.
(** [path.basename] of Node, whichever flavour the platform selects. *)
Variable basename : string → string.

Definition initMessageHandler (context : WebviewContext) : Promise Host unit :=
  let filePath := defaultTemplatePath context in
  authState ← getChatAuthState;
  let responseMessage : JsObject :=
    [ ("messageType", MessageType_RESPONSE);
      ("command", Command_INIT);
      ("templateFileName", JsString (basename filePath));
      ("templateFilePath", JsString filePath);
      ("isConnectedToCodeWhisperer",
        JsBoolean (String.eqb (codewhispererChat authState) "connected"
                   || String.eqb (codewhispererChat authState) "expired")) ] in
  postMessage (panel context) responseMessage.
End Handler.

(** The messages a run appended to the outbox of a host that started at
    [h]. *)
Definition posted {A} (h : Host) (s : Settled Host A) : list (WebviewPanel * JsObject) :=
  drop (length (outbox h)) (outbox (world_of s)).

(** [path.posix.basename] with one argument, to run the handler on concrete
    paths: trailing slashes are dropped, then the text after the last
    remaining slash is kept. *)
Definition is_slash (c : ascii) : bool := Ascii.eqb c "/"%char.

Fixpoint drop_slashes (cs : list ascii) : list ascii :=
  match cs with
  | c :: cs' => if is_slash c then drop_slashes cs' else cs
  | [] => []
  end.

Fixpoint until_slash (cs : list ascii) : list ascii :=
  match cs with
  | c :: cs' => if is_slash c then [] else c :: until_slash cs'
  | [] => []
  end.

Definition posix_basename (p : string) : string :=
  string_of_list_ascii
    (rev (until_slash (drop_slashes (rev (list_ascii_of_string p))))).

Definition sample_context : WebviewContext :=
  {| defaultTemplatePath := "/home/dev/app/template.yaml"; panel := 4%nat |}.

Definition sample_host (state : string) : Host :=
  {| chatAuthState := inr {| codewhispererChat := state |}; outbox := [] |}.

(** The message the handler posts for [sample_context] when the chat
    connection is live. *)
Definition sample_response : JsObject :=
  [ ("messageType", MessageType_RESPONSE);
    ("command", Command_INIT);
    ("templateFileName", JsString "template.yaml");
    ("templateFilePath", JsString "/home/dev/app/template.yaml");
    ("isConnectedToCodeWhisperer", JsBoolean true) ].

(** A host whose auth query fails. *)
Definition failed_auth_host : Host :=
  {| chatAuthState := inl "auth unavailable"; outbox := [] |}.

End Composer.

(** ** The IoT policy node *)

Module Iot.

Record IotPolicy : Type := {
  name : string;
  arn : string;
}.

(** [Iot.PolicyVersion] of the SDK, with the two fields the explorer shows. *)
Record PolicyVersion : Type := {
  versionId : string;
  isDefaultVersion : bool;
}.

Record ListPolicyVersionsRequest : Type := {
  policyName : string;
}.

(** The part of [IotClient] the node calls; the asynchronous sequence it
    yields is given as the list of its items. *)
Record IotClient : Type := {
  listPolicyVersions : ListPolicyVersionsRequest → list PolicyVersion;
}.

Record IotPolicyVersionNode : Type := {
  policy : IotPolicy;
  version : PolicyVersion;
}.

Record IotPolicyWithVersionsNode : Type := {
  node_policy : IotPolicy;
  iot : IotClient;
}.

(** Modelled from the spec: [iot/explorer/iotPolicyNode.ts], which defines
    [IotPolicyWithVersionsNode.getChildren], is not among the sources; only
    its test is.  The spec describes it as fetching the versions of the
    node's policy from the client and wrapping each one in a version node
    that carries the policy and the version. *)
Definition getChildren (node : IotPolicyWithVersionsNode) : list IotPolicyVersionNode :=
  map (λ v, {| policy := node_policy node; version := v |})
      (listPolicyVersions (iot node) {| policyName := name (node_policy node) |}).

(** The fixtures of [iotPolicyNode.test.ts]. *)
Definition policyName_ : string := "policy".
Definition expectedPolicy : IotPolicy := {| name := policyName_; arn := "arn" |}.
Definition policyVersion : PolicyVersion :=
  {| versionId := "V1"; isDefaultVersion := true |}.

(** [when(iot.listPolicyVersions(deepEqual({ policyName }))).thenReturn(...)]:
    the mock answers the stubbed request and nothing else. *)
Definition mock_iot (versions : list PolicyVersion) : IotClient :=
  {| listPolicyVersions := λ req,
       if String.eqb (policyName req) policyName_ then versions else [] |}.

Definition test_node : IotPolicyWithVersionsNode :=
  {| node_policy := expectedPolicy;
     iot := mock_iot [ {| versionId := "V1"; isDefaultVersion := true |} ] |}.

End Iot.

(** ** Extension utilities

    The IDE detection, compute region and version bookkeeping of
    [shared/extensionUtilities.ts]. *)

Module ExtensionUtilities.

Definition vscodeAppname : string := "Visual Studio Code".
Definition cloud9Appname : string := "AWS Cloud9".
Definition cloud9CnAppname : string := "Amazon Cloud9".
Definition sageMakerAppname : string := "SageMaker Code Editor".
Definition notInitialized : string := "notInitialized".

Definition mostRecentVersionKey : string := "globalsMostRecentVersion".

Inductive IDE : Type :=
| vscode
| cloud9
| sagemaker
| unknown.

Record InstanceIdentity : Type := {
  region : string;
}.

(** An [Ec2MetadataClient], by how its [getInstanceIdentity()] settles. *)
Record Ec2MetadataClient : Type := {
  getInstanceIdentity : Error + InstanceIdentity;
}.

(** What the editor and the modules outside this file answer.  None of it
    changes while the functions below run. *)
Record Env : Type := {
  (** [vscode.env.appName]; the source treats it as nullable *)
  appName : option string;
  (** [DevSettings.instance.get('forceCloud9', false)] *)
  forceCloud9 : bool;
  (** [getCodeCatalystDevEnvId()] *)
  codeCatalystDevEnvId : option string;
  (** [extensionVersion] of [./vscode/env] *)
  extensionVersion : string;
  (** [extensionAlphaVersion] of [./extensions] *)
  extensionAlphaVersion : string;
  (** [vscode.extensions.getExtension(...)?.packageJSON.version] *)
  installedVersion : option string;
  (** [new DefaultEc2MetadataClient()] *)
  defaultMetadata : Ec2MetadataClient;
}.

(** What the functions read and write: the module variable
    [computeRegion], the global state memento of the extension context
    (string entries), the warnings shown and the errors logged. *)
Record State : Type := {
  computeRegion : option string;
  globalState : gmap string string;
  warnings : list string;
  logged : list Error;
}.

(** [let computeRegion: string | undefined = notInitialized] *)
Definition initial_state : State :=
  {| computeRegion := Some notInitialized; globalState := ∅;
     warnings := []; logged := [] |}.

Record IdeProperties : Type := {
  shortName : string;
  longName : string;
  commandPalette : string;
  codelens : string;
  codelenses : string;
  company : string;
}.

Inductive Flavor : Type :=
| classic
| codecatalyst
| any.

(** [try { p } catch (e) { handler(e) }] *)
Definition try_catch {W A} (p : Promise W A) (handler : Error → Promise W A)
    : Promise W A :=
  λ w, match p w with
       | Fulfilled a w' => Fulfilled a w'
       | Rejected e w' => handler e w'
       end.

(** [throw new Error(message)] *)
Definition throw {W A} (message : Error) : Promise W A := λ w, Rejected message w.

(** JavaScript truthiness of a string. *)
Definition truthy (s : string) : bool := negb (String.eqb s "").

Section Functions.
Variable env : Env.
(** [localize(key, message, ...args)] of [vscode-nls]. *)
Variable localize : string → string → list string → string.

(** [vscode.env.appName === name] *)
Definition appName_is (name : string) : bool :=
  match appName env with
  | Some a => String.eqb a name
  | None => false
  end.

Definition getIdeType : IDE :=
  if appName_is cloud9Appname || appName_is cloud9CnAppname || forceCloud9 env
  then cloud9
  else if appName_is sageMakerAppname
  then sagemaker
  else if match appName env with
          | Some a => String.prefix vscodeAppname a
          | None => false
          end
  then vscode
  else unknown.

Definition isCloud9 (flavor : Flavor) : bool :=
  let cloud9_ := match getIdeType with cloud9 => true | _ => false end in
  if negb cloud9_ || match flavor with any => true | _ => false end
  then cloud9_
  else
    let codecat := match codeCatalystDevEnvId env with Some _ => true | None => false end in
    (match flavor with classic => true | _ => false end && negb codecat)
    || (match flavor with codecatalyst => true | _ => false end && codecat).

Definition isSageMaker : bool := appName_is sageMakerAppname.

Definition getComputeRegion : Promise State (option string) :=
  λ s, match computeRegion s with
       | Some r =>
           if String.eqb r notInitialized
           then Rejected "Attempted to get compute region without initializing." s
           else Fulfilled (Some r) s
       | None => Fulfilled None s
       end.

(** [getComputeRegion()?.startsWith('cn') ?? false] *)
Definition isCn : Promise State bool :=
  r ← getComputeRegion;
  resolve (match r with
        | Some r => String.prefix "cn" r
        | None => false
        end).

Definition createSageMakerProperties (company : string) : IdeProperties :=
  {| shortName := localize "AWS.vscode.shortName" "{0} Code Editor" [company];
     longName := localize "AWS.vscode.longName" "{0} SageMaker Code Editor" [company];
     commandPalette := localize "AWS.vscode.commandPalette" "Command Palette" [];
     codelens := localize "AWS.vscode.codelens" "CodeLens" [];
     codelenses := localize "AWS.vscode.codelenses" "CodeLenses" [];
     company := company |}.

Definition createCloud9Properties (company : string) : IdeProperties :=
  {| shortName := localize "AWS.cloud9.shortName" "Cloud9" [];
     longName := localize "AWS.cloud9.longName" "{0} Cloud9" [company];
     commandPalette := localize "AWS.cloud9.commandPalette" "Go to Anything Panel" [];
     codelens := localize "AWS.cloud9.codelens" "Inline Action" [];
     codelenses := localize "AWS.cloud9.codelenses" "Inline Actions" [];
     company := company |}.

Definition getIdeProperties : Promise State IdeProperties :=
  let company := localize "AWS.title" "AWS" [] in
  let vscodeVals :=
    {| shortName := localize "AWS.vscode.shortName" "VS Code" [];
       longName := localize "AWS.vscode.longName" "Visual Studio Code" [];
       commandPalette := localize "AWS.vscode.commandPalette" "Command Palette" [];
       codelens := localize "AWS.vscode.codelens" "CodeLens" [];
       codelenses := localize "AWS.vscode.codelenses" "CodeLenses" [];
       company := company |} in
  match getIdeType with
  | cloud9 =>
      isCn ≫= λ cn : bool,
      if cn then resolve (createCloud9Properties (localize "AWS.title.cn" "Amazon" []))
      else resolve (createCloud9Properties company)
  | sagemaker =>
      isCn ≫= λ cn : bool,
      if cn then resolve (createSageMakerProperties (localize "AWS.title.cn" "Amazon" []))
      else resolve (createSageMakerProperties company)
  | _ => resolve vscodeVals
  end.

(** [context.globalState.get<string>(key)] *)
Definition globalState_get (key : string) : Promise State (option string) :=
  λ s, Fulfilled (globalState s !! key) s.

(** [context.globalState.update(key, value)]; the callers do not wait for
    the thenable it returns. *)
Definition globalState_update (key value : string) : Promise State unit :=
  λ s, Fulfilled () {| computeRegion := computeRegion s;
                       globalState := <[key := value]> (globalState s);
                       warnings := warnings s; logged := logged s |}.

(** [currVersion] is optional and defaults to [extensionVersion]. *)
Definition isDifferentVersion (currVersion : option string) : Promise State bool :=
  let currVersion := default (extensionVersion env) currVersion in
  mostRecentVersion ← globalState_get mostRecentVersionKey;
  if match mostRecentVersion with
     | Some v => truthy v && String.eqb v currVersion
     | None => false
     end
  then resolve false
  else resolve true.

Definition setMostRecentVersion : Promise State unit :=
  globalState_update mostRecentVersionKey (extensionVersion env).

(** The body starts with [return]: what follows it in the source never
    runs. *)
Definition promptQuickstart : Promise State unit := resolve ().

(** [vscode.window.showWarningMessage(message)] *)
Definition showWarningMessage (message : string) : Promise State unit :=
  λ s, Fulfilled () {| computeRegion := computeRegion s; globalState := globalState s;
                       warnings := warnings s ++ [message]; logged := logged s |}.

(** [getLogger().error(err)] *)
Definition logError (err : Error) : Promise State unit :=
  λ s, Fulfilled () {| computeRegion := computeRegion s; globalState := globalState s;
                       warnings := warnings s; logged := logged s ++ [err] |}.

Definition showWelcomeMessage : Promise State unit :=
  match codeCatalystDevEnvId env with
  | Some _ => resolve ()
  | None =>
      let version := installedVersion env in
      if match version with
         | Some v => String.eqb v (extensionAlphaVersion env)
         | None => false
         end
      then
        properties ← getIdeProperties;
        showWarningMessage
          (localize "AWS.startup.toastIfAlpha"
             "{0} Toolkit PREVIEW. (To get the latest STABLE version, uninstall this version.)"
             [company properties])
      else
        try_catch
          (isDifferentVersion None ≫= λ different : bool,
           if different
           then (_ ← setMostRecentVersion;
                 if negb (isCloud9 any) then promptQuickstart else resolve ())
           else resolve ())
          (λ err, logError err)
  end.

(** [computeRegion = value] *)
Definition set_computeRegion (value : option string) : Promise State unit :=
  λ s, Fulfilled () {| computeRegion := value; globalState := globalState s;
                       warnings := warnings s; logged := logged s |}.

(** [metadata.getInstanceIdentity()] *)
Definition call_getInstanceIdentity (metadata : Ec2MetadataClient)
    : Promise State InstanceIdentity :=
  λ s, match getInstanceIdentity metadata with
       | inl e => Rejected e s
       | inr identity => Fulfilled identity s
       end.

(** The three parameters are optional; [x ??= d] keeps a given [x]. *)
Definition initializeComputeRegion (metadata : option Ec2MetadataClient)
    (isC9 isSM : option bool) : Promise State unit :=
  let isC9 := default (isCloud9 any) isC9 in
  let isSM := default isSageMaker isSM in
  if isC9 || isSM then
    let metadata := default (defaultMetadata env) metadata in
    try_catch
      (identity ← call_getInstanceIdentity metadata;
       set_computeRegion (Some (if truthy (region identity) then region identity
                                else "unknown")))
      (λ _, set_computeRegion (Some "unknown"))
  else
    (* not cloud9, region has no meaning *)
    set_computeRegion None.

End Functions.

(** The message bundle when no translation is loaded: the default message
    with [{0}] replaced by the first argument. *)
Fixpoint fill0 (arg : string) (message : string) : string :=
  match message with
  | String "{"%char (String "0"%char (String "}"%char rest)) => arg +:+ fill0 arg rest
  | String c rest => String c (fill0 arg rest)
  | EmptyString => EmptyString
  end.

Definition default_localize (key message : string) (args : list string) : string :=
  match args with
  | arg :: _ => fill0 arg message
  | [] => message
  end.

(** Sample environments. *)
Definition desktop_env : Env :=
  {| appName := Some "Visual Studio Code - Insiders"; forceCloud9 := false;
     codeCatalystDevEnvId := None; extensionVersion := "3.1.0";
     extensionAlphaVersion := "99.0.0-SNAPSHOT"; installedVersion := Some "3.1.0";
     defaultMetadata := {| getInstanceIdentity := inl "ETIMEDOUT" |} |}.

Definition cloud9_cn_env : Env :=
  {| appName := Some "Amazon Cloud9"; forceCloud9 := false;
     codeCatalystDevEnvId := None; extensionVersion := "3.1.0";
     extensionAlphaVersion := "99.0.0-SNAPSHOT"; installedVersion := Some "3.1.0";
     defaultMetadata := {| getInstanceIdentity := inr {| region := "cn-north-1" |} |} |}.

Definition forced_sagemaker_env : Env :=
  {| appName := Some "SageMaker Code Editor"; forceCloud9 := true;
     codeCatalystDevEnvId := Some "env-1"; extensionVersion := "3.1.0";
     extensionAlphaVersion := "99.0.0-SNAPSHOT"; installedVersion := None;
     defaultMetadata := {| getInstanceIdentity := inl "ETIMEDOUT" |} |}.

Definition alpha_cloud9_env : Env :=
  {| appName := Some "AWS Cloud9"; forceCloud9 := false;
     codeCatalystDevEnvId := None; extensionVersion := "3.1.0";
     extensionAlphaVersion := "99.0.0-SNAPSHOT";
     installedVersion := Some "99.0.0-SNAPSHOT";
     defaultMetadata := {| getInstanceIdentity := inr {| region := "us-west-2" |} |} |}.

Definition alpha_env : Env :=
  {| appName := Some "Visual Studio Code"; forceCloud9 := false;
     codeCatalystDevEnvId := None; extensionVersion := "3.1.0";
     extensionAlphaVersion := "99.0.0-SNAPSHOT";
     installedVersion := Some "99.0.0-SNAPSHOT";
     defaultMetadata := {| getInstanceIdentity := inl "ETIMEDOUT" |} |}.

(** Sample states: one with the region initialized in a cn region, one in
    which version 3.1.0 was recorded. *)
Definition cn_state : State :=
  {| computeRegion := Some "cn-north-1"; globalState := ∅; warnings := []; logged := [] |}.

Definition upgraded_state : State :=
  {| computeRegion := None;
     globalState := {[ mostRecentVersionKey := "3.0.0"; "aws.telemetry" := "on" ]};
     warnings := []; logged := [] |}.

End ExtensionUtilities.

(** * Properties *)

(** ** The host *)

Section HostLaws.
Import Notifications.

Lemma enter_faultless c w :
  faultless w = true →
  fault (enter c w).1 = None ∧ faultless (enter c w).2 = true.
Proof.
  unfold faultless, enter. destruct (script w) as [|t s]; simpl; [done|].
  destruct (fault t); simpl; [done|]. by intros ->.
Qed.

Lemma enter_clock c w : clock w ≤ clock (enter c w).2.
Proof. simpl. lia. Qed.

Lemma store_entry_lookup m k v w :
  contents (store_entry m k v w) m !! k = Some v.
Proof. simpl. rewrite decide_True by done. apply lookup_insert_eq. Qed.

Lemma store_entry_other m k v w m' k' :
  (m', k') ≠ (m, k) →
  contents (store_entry m k v w) m' !! k' = contents w m' !! k'.
Proof.
  intros Hne. simpl. case_decide as Hm; [|done]. subst m'.
  apply lookup_insert_ne. congruence.
Qed.

Lemma memento_get_faultless m k w :
  faultless w = true →
  memento_get m k w = Fulfilled (contents w m !! k) (enter (CallGet m k) w).2.
Proof.
  intros Hw. unfold memento_get.
  destruct (enter_faultless (CallGet m k) w Hw) as [Hf _].
  destruct (enter (CallGet m k) w) as [t w1] eqn:E. simpl in *.
  rewrite Hf. by inversion E.
Qed.

Lemma memento_update_faultless m k v w :
  faultless w = true →
  memento_update m k v w
  = Fulfilled () (store_entry m k v (enter (CallUpdate m k v) w).2).
Proof.
  intros Hw. unfold memento_update.
  destruct (enter_faultless (CallUpdate m k v) w Hw) as [Hf _].
  destruct (enter (CallUpdate m k v) w) as [t w1] eqn:E. simpl in *.
  by rewrite Hf.
Qed.

(** A key is the prefix followed by the name, so distinct names never
    share a key. *)
Lemma StorageKey_inj n1 n2 : StorageKey +:+ n1 = StorageKey +:+ n2 → n1 = n2.
Proof. apply (inj (String.app StorageKey)). Qed.

End HostLaws.

(** ** The notification info store *)

Section StoreTheorems.
Import Notifications.

Implicit Types (this : NotificationInfoStore) (w : World) (m : Memento).
Implicit Types (r record : NotificationInfoRecord) (n name k : string).

(** The four mutating methods other than [addRecord*] share one shape:
    read the entry, build the new record from it (and from the clock),
    write it back under the same key. *)
Lemma read_modify_write m k (g : option NotificationInfoRecord → Z → NotificationInfoRecord) w :
  faultless w = true →
  ∃ w' t,
    (record ← memento_get m k; now ← Date_getTime; memento_update m k (g record now)) w
    = Fulfilled () w' ∧
    faultless w' = true ∧
    clock w ≤ t ≤ clock w' ∧
    contents w' m !! k = Some (g (contents w m !! k) t).
Proof.
  intros Hw.
  destruct (enter_faultless (CallGet m k) w Hw) as [_ Hw1].
  set (w1 := (enter (CallGet m k) w).2) in *.
  set (v := g (contents w m !! k) (clock w1)).
  exists (store_entry m k v (enter (CallUpdate m k v) w1).2), (clock w1).
  split; [|split; [|split]].
  - unfold mbind, promise_bind, await.
    rewrite (memento_get_faultless m k w Hw). fold w1.
    unfold Date_getTime. by rewrite (memento_update_faultless m k _ w1 Hw1).
  - by destruct (enter_faultless (CallUpdate m k v) w1 Hw1).
  - split; [apply enter_clock|].
    change (clock w1 ≤ clock (enter (CallUpdate m k v) w1).2). apply enter_clock.
  - apply store_entry_lookup.
Qed.

Lemma setMuteStatusInWorkplaceStore_faultless this n b w :
  faultless w = true →
  ∃ w', setMuteStatusInWorkplaceStore this n b w = Fulfilled () w' ∧
        faultless w' = true ∧
        contents w' (workplaceStore this) !! (StorageKey +:+ n)
        = Some (set_muted b (orEmpty n (contents w (workplaceStore this) !! (StorageKey +:+ n)))).
Proof.
  intros Hw.
  destruct (read_modify_write (workplaceStore this) (StorageKey +:+ n)
              (λ o _, set_muted b (orEmpty n o)) w Hw) as (w' & t & Hrun & Hw' & _ & Hget).
  exists w'. by split_and!.
Qed.

Lemma setMuteStatusInGlobalStore_faultless this n b w :
  faultless w = true →
  ∃ w', setMuteStatusInGlobalStore this n b w = Fulfilled () w' ∧
        faultless w' = true ∧
        contents w' (globalStore this) !! (StorageKey +:+ n)
        = Some (set_muted b (orEmpty n (contents w (globalStore this) !! (StorageKey +:+ n)))).
Proof.
  intros Hw.
  destruct (read_modify_write (globalStore this) (StorageKey +:+ n)
              (λ o _, set_muted b (orEmpty n o)) w Hw) as (w' & t & Hrun & Hw' & _ & Hget).
  exists w'. by split_and!.
Qed.

Lemma addNewViewToNotificationInGlobalStore_faultless this n w :
  faultless w = true →
  ∃ w' t, addNewViewToNotificationInGlobalStore this n w = Fulfilled () w' ∧
          faultless w' = true ∧
          clock w ≤ t ≤ clock w' ∧
          contents w' (globalStore this) !! (StorageKey +:+ n)
          = Some (let r := orEmpty n (contents w (globalStore this) !! (StorageKey +:+ n)) in
                  set_lastSeen t (set_viewsCounter (viewsCounter r + 1) r)).
Proof.
  intros Hw.
  apply (read_modify_write (globalStore this) (StorageKey +:+ n)
           (λ o now, set_lastSeen now
                       (set_viewsCounter (viewsCounter (orEmpty n o) + 1) (orEmpty n o))) w Hw).
Qed.

(** C2.  On a host that does not fail, when the global memento holds no
    record for [name], [addNewViewToNotificationInGlobalStore name] stores
    the record [{name, viewsCounter = 1, lastSeen = t1, muted = false}]
    where [t1] is a clock reading taken during the call, hence not before
    the call started; a second call leaves a record with
    [viewsCounter = 2] (and a [lastSeen] not before that second call). *)
Theorem addNewView_global_on_absent_record this name w :
  faultless w = true →
  contents w (globalStore this) !! (StorageKey +:+ name) = None →
  ∃ w1 w2 t1 r2,
    addNewViewToNotificationInGlobalStore this name w = Fulfilled () w1 ∧
    contents w1 (globalStore this) !! (StorageKey +:+ name)
    = Some {| notificationName := name; viewsCounter := 1;
              lastSeen := t1; muted := false |} ∧
    clock w ≤ t1 ≤ clock w1 ∧
    addNewViewToNotificationInGlobalStore this name w1 = Fulfilled () w2 ∧
    contents w2 (globalStore this) !! (StorageKey +:+ name) = Some r2 ∧
    viewsCounter r2 = 2 ∧
    clock w1 ≤ lastSeen r2.
Proof.
  intros Hw Habsent.
  destruct (addNewViewToNotificationInGlobalStore_faultless this name w Hw)
    as (w1 & t1 & Hrun1 & Hw1 & Ht1 & Hget1).
  destruct (addNewViewToNotificationInGlobalStore_faultless this name w1 Hw1)
    as (w2 & t2 & Hrun2 & _ & Ht2 & Hget2).
  rewrite Habsent in Hget1. rewrite Hget1 in Hget2. simpl in Hget1, Hget2.
  exists w1, w2, t1. eexists. split_and!; try done; simpl; lia.
Qed.

(** C3.  On a host that does not fail, [setMuteStatusInWorkplaceStore name
    true] followed by [getRecordFromWorkplaceStore name] yields a record
    whose [muted] is [true]; if a record was stored under that name
    before, the other three fields are the ones it had. *)
Theorem setMute_true_then_get_workplace this name w :
  faultless w = true →
  ∃ w1 w2 r',
    setMuteStatusInWorkplaceStore this name true w = Fulfilled () w1 ∧
    getRecordFromWorkplaceStore this name w1 = Fulfilled (Some r') w2 ∧
    muted r' = true ∧
    ∀ r, contents w (workplaceStore this) !! (StorageKey +:+ name) = Some r →
         notificationName r' = notificationName r ∧
         viewsCounter r' = viewsCounter r ∧
         lastSeen r' = lastSeen r.
Proof.
  intros Hw.
  destruct (setMuteStatusInWorkplaceStore_faultless this name true w Hw)
    as (w1 & Hrun & Hw1 & Hget).
  exists w1. eexists. eexists. split; [exact Hrun|]. split.
  - unfold getRecordFromWorkplaceStore.
    rewrite (memento_get_faultless _ _ w1 Hw1), Hget. reflexivity.
  - split; [done|]. by intros r ->.
Qed.

(** C5, as amended.  On a host that does not fail, each of the two
    [setMuteStatus*] methods leaves under the name's key a record whose
    [muted] field is the [isMuted] argument, whatever was stored before.
    The flag is assigned, not inverted. *)
Theorem setMuteStatus_assigns_flag this name isMuted w :
  faultless w = true →
  (∃ w', setMuteStatusInWorkplaceStore this name isMuted w = Fulfilled () w' ∧
         muted <$> contents w' (workplaceStore this) !! (StorageKey +:+ name)
         = Some isMuted) ∧
  (∃ w', setMuteStatusInGlobalStore this name isMuted w = Fulfilled () w' ∧
         muted <$> contents w' (globalStore this) !! (StorageKey +:+ name)
         = Some isMuted).
Proof.
  intros Hw. split.
  - destruct (setMuteStatusInWorkplaceStore_faultless this name isMuted w Hw)
      as (w' & Hrun & _ & Hget).
    exists w'. by rewrite Hget.
  - destruct (setMuteStatusInGlobalStore_faultless this name isMuted w Hw)
      as (w' & Hrun & _ & Hget).
    exists w'. by rewrite Hget.
Qed.

(** C10.  On a host that does not fail, when a memento holds no record
    for [name], the [setMuteStatus*] method of that memento stores the
    record [{name, viewsCounter = 0, lastSeen = 0, muted = isMuted}]. *)
Theorem setMuteStatus_on_absent_record this name isMuted w :
  faultless w = true →
  (contents w (workplaceStore this) !! (StorageKey +:+ name) = None →
   ∃ w', setMuteStatusInWorkplaceStore this name isMuted w = Fulfilled () w' ∧
         contents w' (workplaceStore this) !! (StorageKey +:+ name)
         = Some {| notificationName := name; viewsCounter := 0;
                   lastSeen := 0; muted := isMuted |}) ∧
  (contents w (globalStore this) !! (StorageKey +:+ name) = None →
   ∃ w', setMuteStatusInGlobalStore this name isMuted w = Fulfilled () w' ∧
         contents w' (globalStore this) !! (StorageKey +:+ name)
         = Some {| notificationName := name; viewsCounter := 0;
                   lastSeen := 0; muted := isMuted |}).
Proof.
  intros Hw. split; intros Habsent.
  - destruct (setMuteStatusInWorkplaceStore_faultless this name isMuted w Hw)
      as (w' & Hrun & _ & Hget).
    exists w'. by rewrite Hget, Habsent.
  - destruct (setMuteStatusInGlobalStore_faultless this name isMuted w Hw)
      as (w' & Hrun & _ & Hget).
    exists w'. by rewrite Hget, Habsent.
Qed.

(** *** Footprint of the methods *)

Lemma within_refl m k w : within m k w w.
Proof. split; [|done]. exists []. by rewrite app_nil_r. Qed.

Lemma within_trans m k w1 w2 w3 :
  within m k w1 w2 → within m k w2 w3 → within m k w1 w3.
Proof.
  intros [(c1 & Ht1 & Hc1) Hf1] [(c2 & Ht2 & Hc2) Hf2]. split.
  - exists (c1 ++ c2). rewrite Ht2, Ht1, app_assoc. split; [done|].
    by apply Forall_app.
  - intros m' k' Hne. by rewrite Hf2, Hf1.
Qed.

Lemma within_enter m k c w : on_entry m k c → within m k w (enter c w).2.
Proof. intros Hc. split; [|done]. exists [c]. split; [done|]. by constructor. Qed.

Lemma within_store_entry m k v w : within m k w (store_entry m k v w).
Proof.
  split.
  - exists []. by rewrite app_nil_r.
  - intros m' k' Hne. by apply store_entry_other.
Qed.

Lemma confined_ret {A} m k (a : A) : confined m k (mret a).
Proof. intros w. apply within_refl. Qed.

Lemma confined_bind {A B} m k (p : Promise World A) (f : A → Promise World B) :
  confined m k p → (∀ a, confined m k (f a)) → confined m k (p ≫= f).
Proof.
  intros Hp Hf w. unfold mbind, promise_bind, await.
  specialize (Hp w). destruct (p w) as [a w1|e w1]; simpl in *; [|done].
  eapply within_trans; [exact Hp|apply Hf].
Qed.

Lemma confined_get m k : confined m k (memento_get m k).
Proof.
  intros w. unfold memento_get.
  pose proof (within_enter m k (CallGet m k) w (conj eq_refl eq_refl)) as H.
  destruct (enter (CallGet m k) w) as [t w1]. by destruct (fault t).
Qed.

Lemma confined_update m k v : confined m k (memento_update m k v).
Proof.
  intros w. unfold memento_update.
  pose proof (within_enter m k (CallUpdate m k v) w (conj eq_refl eq_refl)) as H.
  destruct (enter (CallUpdate m k v) w) as [t w1]. destruct (fault t); [done|].
  eapply within_trans; [exact H|apply within_store_entry].
Qed.

Lemma confined_Date_getTime m k : confined m k Date_getTime.
Proof. intros w. apply within_refl. Qed.

Create HintDb footprint.
#[local] Hint Resolve confined_ret confined_get confined_update
  confined_Date_getTime : footprint.

Ltac footprint :=
  repeat first
    [ apply confined_bind; [|intros ?]
    | solve [auto with footprint] ].

Lemma run_confined this op :
  confined (op_memento this op) (StorageKey +:+ op_name op) (run this op).
Proof.
  destruct op; simpl;
    unfold void, addRecordToWorkplaceStore, addRecordToGlobalStore,
      setMuteStatusInWorkplaceStore, setMuteStatusInGlobalStore,
      addNewViewToNotificationInWorkplaceStore, addNewViewToNotificationInGlobalStore,
      getRecordFromGlobalStore, getRecordFromWorkplaceStore;
    footprint.
Qed.

(** In particular a method called for one notification leaves the records
    of every other notification alone, in both mementos. *)
Lemma run_other_notification this op w m n :
  n ≠ op_name op →
  contents (world_of (run this op w)) m !! (StorageKey +:+ n)
  = contents w m !! (StorageKey +:+ n).
Proof.
  intros Hne. apply (run_confined this op w).
  intros Hk. apply Hne, StorageKey_inj. exact (f_equal snd Hk).
Qed.

(** On a memento that stores copies: [addRecordTo*Store record] followed
    by [getRecordFrom*Store record.notificationName] yields [record]
    itself, and every method, whether it fulfils or rejects, enters the
    host only for the key of the name and leaves every other entry as it
    was. *)
Lemma copies_kept_under_prefixed_key this w :
  (∀ record, faultless w = true →
     (∃ w1 w2,
        addRecordToGlobalStore this record w = Fulfilled () w1 ∧
        getRecordFromGlobalStore this (notificationName record) w1
        = Fulfilled (Some record) w2) ∧
     (∃ w1 w2,
        addRecordToWorkplaceStore this record w = Fulfilled () w1 ∧
        getRecordFromWorkplaceStore this (notificationName record) w1
        = Fulfilled (Some record) w2)) ∧
  (∀ op, within (op_memento this op) ("NOTIFICATION_INFO_" +:+ op_name op)
                w (world_of (run this op w))).
Proof.
  split.
  - intros record Hw. split.
    + unfold addRecordToGlobalStore, getRecordFromGlobalStore.
      rewrite (memento_update_faultless _ _ _ w Hw).
      destruct (enter_faultless
                  (CallUpdate (globalStore this)
                     (StorageKey +:+ notificationName record) record) w Hw) as [_ Hw1].
      eexists. eexists. split; [reflexivity|].
      rewrite memento_get_faultless by exact Hw1.
      by rewrite store_entry_lookup.
    + unfold addRecordToWorkplaceStore, getRecordFromWorkplaceStore.
      rewrite (memento_update_faultless _ _ _ w Hw).
      destruct (enter_faultless
                  (CallUpdate (workplaceStore this)
                     (StorageKey +:+ notificationName record) record) w Hw) as [_ Hw1].
      eexists. eexists. split; [reflexivity|].
      rewrite memento_get_faultless by exact Hw1.
      by rewrite store_entry_lookup.
  - intros op. apply run_confined.
Qed.

(** *** Failures of the host *)

Ltac unfold_methods :=
  unfold run, void, addRecordToWorkplaceStore, addRecordToGlobalStore,
    setMuteStatusInWorkplaceStore, setMuteStatusInGlobalStore,
    addNewViewToNotificationInWorkplaceStore, addNewViewToNotificationInGlobalStore,
    getRecordFromGlobalStore, getRecordFromWorkplaceStore,
    mbind, promise_bind, await, mret, promise_ret, resolve,
    Date_getTime, memento_get, memento_update, enter.

(** C8.  If among the host calls a method makes the one at position [i]
    is the first to fail, throwing [e], the method rejects with that same
    [e]; it has then entered the host exactly [i + 1] times: the failing
    call is its last, nothing is retried and nothing is attempted
    afterwards. *)
Theorem host_failure_propagates this op w i e :
  first_fault (host_calls op) (script w) = Some (i, e) →
  ∃ w', run this op w = Rejected e w' ∧
        length (trace w') = (length (trace w) + S i)%nat ∧
        script w' = drop (S i) (script w).
Proof.
  intros Hfault.
  destruct op; unfold_methods;
    destruct (script w) as [|t1 s]; simpl in *; try done;
    destruct (fault t1); simpl in *; simplify_eq;
    try (eexists; split_and!; [reflexivity|simpl..]; try done;
         rewrite ?length_app; simpl; lia);
    destruct s as [|t2 s]; simpl in *; try done;
    destruct (fault t2); simpl in *; simplify_eq;
    eexists; (split_and!; [reflexivity|simpl..]); try done;
    rewrite ?length_app; simpl; lia.
Qed.

(** Conversely a method fulfils when none of its host calls fails. *)
Lemma run_fulfils_without_fault this op w :
  first_fault (host_calls op) (script w) = None →
  ∃ v w', run this op w = Fulfilled v w'.
Proof.
  intros Hfault.
  destruct op; unfold_methods;
    destruct (script w) as [|t1 s]; simpl in *; eauto;
    destruct (fault t1); simpl in *; simplify_eq; eauto;
    destruct s as [|t2 s]; simpl in *; eauto;
    destruct (fault t2); simpl in *; simplify_eq; eauto.
Qed.

End StoreTheorems.

(** *** The store on the sample hosts *)

Section StoreRuns.
Import Notifications.

(** C5 as the spec words it does not hold.  [seen_world] holds a muted
    record for "welcome" in both mementos; after [setMuteStatus*
    "welcome" true] the record is still muted: the stored flag was not
    inverted. *)
Lemma setMuteStatus_does_not_toggle :
  let key := StorageKey +:+ "welcome" in
  muted <$> contents seen_world (workplaceStore sample_store) !! key = Some true ∧
  muted <$> contents seen_world (globalStore sample_store) !! key = Some true ∧
  (∃ w', setMuteStatusInWorkplaceStore sample_store "welcome" true seen_world
         = Fulfilled () w' ∧
         muted <$> contents w' (workplaceStore sample_store) !! key = Some true) ∧
  (∃ w', setMuteStatusInGlobalStore sample_store "welcome" true seen_world
         = Fulfilled () w' ∧
         muted <$> contents w' (globalStore sample_store) !! key = Some true).
Proof.
  split; [by vm_compute|]. split; [by vm_compute|]. split.
  - exists (world_of (setMuteStatusInWorkplaceStore sample_store "welcome" true seen_world)).
    by vm_compute.
  - exists (world_of (setMuteStatusInGlobalStore sample_store "welcome" true seen_world)).
    by vm_compute.
Qed.

Lemma addNewView_global_on_absent_record_sample :
  faultless fresh_world = true ∧
  contents fresh_world (globalStore sample_store) !! (StorageKey +:+ "hello") = None ∧
  ∃ w1 w2 t1 r2,
    addNewViewToNotificationInGlobalStore sample_store "hello" fresh_world
    = Fulfilled () w1 ∧
    contents w1 (globalStore sample_store) !! (StorageKey +:+ "hello")
    = Some {| notificationName := "hello"; viewsCounter := 1;
              lastSeen := t1; muted := false |} ∧
    clock fresh_world ≤ t1 ≤ clock w1 ∧
    addNewViewToNotificationInGlobalStore sample_store "hello" w1 = Fulfilled () w2 ∧
    contents w2 (globalStore sample_store) !! (StorageKey +:+ "hello") = Some r2 ∧
    viewsCounter r2 = 2 ∧
    clock w1 ≤ lastSeen r2.
Proof.
  split; [reflexivity|]. split; [by vm_compute|].
  apply (addNewView_global_on_absent_record sample_store "hello" fresh_world);
    [reflexivity|by vm_compute].
Defined.

Lemma setMute_true_then_get_workplace_sample :
  faultless seen_world = true ∧
  ∃ w1 w2 r',
    setMuteStatusInWorkplaceStore sample_store "welcome" true seen_world
    = Fulfilled () w1 ∧
    getRecordFromWorkplaceStore sample_store "welcome" w1 = Fulfilled (Some r') w2 ∧
    muted r' = true ∧
    ∀ r, contents seen_world (workplaceStore sample_store) !! (StorageKey +:+ "welcome")
         = Some r →
         notificationName r' = notificationName r ∧
         viewsCounter r' = viewsCounter r ∧
         lastSeen r' = lastSeen r.
Proof.
  split; [reflexivity|].
  apply (setMute_true_then_get_workplace sample_store "welcome" seen_world).
  reflexivity.
Defined.

Lemma setMuteStatus_assigns_flag_sample :
  faultless seen_world = true ∧
  (∃ w', setMuteStatusInWorkplaceStore sample_store "welcome" false seen_world
         = Fulfilled () w' ∧
         muted <$> contents w' (workplaceStore sample_store) !! (StorageKey +:+ "welcome")
         = Some false) ∧
  (∃ w', setMuteStatusInGlobalStore sample_store "welcome" false seen_world
         = Fulfilled () w' ∧
         muted <$> contents w' (globalStore sample_store) !! (StorageKey +:+ "welcome")
         = Some false).
Proof.
  split; [reflexivity|].
  apply (setMuteStatus_assigns_flag sample_store "welcome" false seen_world).
  reflexivity.
Defined.

Lemma setMuteStatus_on_absent_record_sample :
  faultless fresh_world = true ∧
  contents fresh_world (workplaceStore sample_store) !! (StorageKey +:+ "hello") = None ∧
  contents fresh_world (globalStore sample_store) !! (StorageKey +:+ "hello") = None ∧
  (∃ w', setMuteStatusInWorkplaceStore sample_store "hello" true fresh_world
         = Fulfilled () w' ∧
         contents w' (workplaceStore sample_store) !! (StorageKey +:+ "hello")
         = Some {| notificationName := "hello"; viewsCounter := 0;
                   lastSeen := 0; muted := true |}) ∧
  (∃ w', setMuteStatusInGlobalStore sample_store "hello" true fresh_world
         = Fulfilled () w' ∧
         contents w' (globalStore sample_store) !! (StorageKey +:+ "hello")
         = Some {| notificationName := "hello"; viewsCounter := 0;
                   lastSeen := 0; muted := true |}).
Proof.
  split; [reflexivity|]. split; [by vm_compute|]. split; [by vm_compute|].
  destruct (setMuteStatus_on_absent_record sample_store "hello" true fresh_world eq_refl)
    as [HW HG].
  split; [apply HW|apply HG]; by vm_compute.
Defined.

Lemma host_failure_propagates_sample :
  first_fault (host_calls (SetMuteStatusInWorkplaceStore "welcome" true))
    (script failing_world) = Some (1%nat, "QuotaExceededError") ∧
  ∃ w', run sample_store (SetMuteStatusInWorkplaceStore "welcome" true) failing_world
        = Rejected "QuotaExceededError" w' ∧
        length (trace w') = (length (trace failing_world) + 2)%nat ∧
        script w' = drop 2 (script failing_world).
Proof.
  split; [reflexivity|].
  apply (host_failure_propagates sample_store
           (SetMuteStatusInWorkplaceStore "welcome" true) failing_world 1%nat
           "QuotaExceededError").
  reflexivity.
Defined.

(** What the second call of a fresh notification leaves behind, spelled
    out: the global memento after two views of "hello". *)
Example two_views_of_hello :
  (w1 ← Some (world_of (addNewViewToNotificationInGlobalStore sample_store "hello"
                          fresh_world));
   contents (world_of (addNewViewToNotificationInGlobalStore sample_store "hello" w1))
     (globalStore sample_store) !! (StorageKey +:+ "hello"))
  = Some {| notificationName := "hello"; viewsCounter := 2;
            lastSeen := 1700000000007; muted := false |}.
Proof. by vm_compute. Qed.

End StoreRuns.

(** ** The Application Composer init handler *)

Section HandlerTheorems.
Import Composer.

Variable basename : string → string.

Implicit Types (context : WebviewContext) (h : Host) (msg : JsObject).

(** The handler settles the way [getChatAuthState] does: it rejects with
    the error of the auth query, without posting, or fulfils after
    posting one object literal. *)
Lemma initMessageHandler_rejects context h e :
  chatAuthState h = inl e →
  initMessageHandler basename context h = Rejected e h.
Proof.
  intros Hauth. unfold initMessageHandler, mbind, promise_bind, await, getChatAuthState.
  by rewrite Hauth.
Qed.

Lemma initMessageHandler_fulfils context h st :
  chatAuthState h = inr st →
  initMessageHandler basename context h
  = Fulfilled ()
      {| chatAuthState := chatAuthState h;
         outbox := outbox h ++
           [ (panel context,
              [ ("messageType", MessageType_RESPONSE);
                ("command", Command_INIT);
                ("templateFileName", JsString (basename (defaultTemplatePath context)));
                ("templateFilePath", JsString (defaultTemplatePath context));
                ("isConnectedToCodeWhisperer",
                  JsBoolean (String.eqb (codewhispererChat st) "connected"
                             || String.eqb (codewhispererChat st) "expired")) ]) ] |}.
Proof.
  intros Hauth.
  unfold initMessageHandler, mbind, promise_bind, await, getChatAuthState, postMessage.
  rewrite Hauth. cbv beta zeta. by rewrite ?Hauth.
Qed.

Lemma posted_by_initMessageHandler context h p msg :
  (p, msg) ∈ posted h (initMessageHandler basename context h) →
  ∃ st, chatAuthState h = inr st ∧
        posted h (initMessageHandler basename context h) = [(p, msg)] ∧
        initMessageHandler basename context h
        = Fulfilled () {| chatAuthState := chatAuthState h;
                          outbox := outbox h ++ [(p, msg)] |}.
Proof.
  unfold posted. destruct (chatAuthState h) as [e|st] eqn:Hauth.
  - rewrite (initMessageHandler_rejects context h e Hauth). simpl.
    rewrite drop_all. by intros ?%elem_of_nil.
  - rewrite (initMessageHandler_fulfils context h st Hauth). simpl.
    rewrite drop_app_length. intros ->%list_elem_of_singleton.
    exists st. by rewrite Hauth.
Qed.

(** C4.  Every message the handler posts has [templateFilePath] equal to
    the context's [defaultTemplatePath] and [templateFileName] equal to
    [basename] of that path. *)
Theorem init_response_names_the_template context h p msg :
  (p, msg) ∈ posted h (initMessageHandler basename context h) →
  ∃ filePath fileName,
    field "templateFilePath" msg = Some (JsString filePath) ∧
    field "templateFileName" msg = Some (JsString fileName) ∧
    filePath = defaultTemplatePath context ∧
    fileName = basename filePath.
Proof.
  intros (st & Hauth & _ & Hrun)%posted_by_initMessageHandler.
  rewrite (initMessageHandler_fulfils context h st Hauth) in Hrun.
  injection Hrun as Hout. apply app_inv_head in Hout.
  injection Hout as _ <-. by eexists _, _.
Qed.

(** C7.  A run of the handler that completes has posted exactly one
    message, to the webview of the context's panel; the message has the
    five properties [messageType], [command], [templateFileName],
    [templateFilePath], [isConnectedToCodeWhisperer] and no other, with
    [messageType] being [MessageType.RESPONSE] and [command] being
    [Command.INIT]. *)
Theorem init_posts_one_response context h h' :
  initMessageHandler basename context h = Fulfilled () h' →
  ∃ msg,
    outbox h' = outbox h ++ [(panel context, msg)] ∧
    msg.*1 = [ "messageType"; "command"; "templateFileName"; "templateFilePath";
               "isConnectedToCodeWhisperer" ] ∧
    field "messageType" msg = Some MessageType_RESPONSE ∧
    field "command" msg = Some Command_INIT.
Proof.
  intros Hrun. destruct (chatAuthState h) as [e|st] eqn:Hauth.
  - by rewrite (initMessageHandler_rejects context h e Hauth) in Hrun.
  - rewrite (initMessageHandler_fulfils context h st Hauth) in Hrun.
    injection Hrun as <-. by eexists.
Qed.

(** C9.  When the auth query answers with state [st], the handler posts
    one message, whose [isConnectedToCodeWhisperer] is [true] exactly when
    [st.codewhispererChat] is ['connected'] or ['expired']. *)
Theorem init_response_connected_flag context h st :
  chatAuthState h = inr st →
  ∃ msg b,
    posted h (initMessageHandler basename context h) = [(panel context, msg)] ∧
    field "isConnectedToCodeWhisperer" msg = Some (JsBoolean b) ∧
    (b = true ↔ codewhispererChat st = "connected" ∨ codewhispererChat st = "expired").
Proof.
  intros Hauth. unfold posted.
  rewrite (initMessageHandler_fulfils context h st Hauth). simpl.
  rewrite drop_app_length. eexists _, _. split; [reflexivity|]. split; [reflexivity|].
  rewrite orb_true_iff, !String.eqb_eq. done.
Qed.

End HandlerTheorems.

(** ** The IoT policy node *)

Section IotTheorems.
Import Iot.

(** C1.  The children of a policy node are, in order, one version node
    per version the client lists for the policy's name, each holding the
    node's policy and that version. *)
Theorem getChildren_wraps_each_version (node : IotPolicyWithVersionsNode) :
  Forall2 (λ child v, policy child = node_policy node ∧ version child = v)
          (getChildren node)
          (listPolicyVersions (iot node) {| policyName := name (node_policy node) |}).
Proof.
  unfold getChildren.
  induction (listPolicyVersions (iot node) _) as [|v vs IH]; simpl.
  - constructor.
  - constructor; [done|exact IH].
Qed.

(** The test ['gets children'] of [iotPolicyNode.test.ts]: one child,
    with the expected policy and version. *)
Example test_gets_children :
  getChildren test_node = [ {| policy := expectedPolicy; version := policyVersion |} ].
Proof. reflexivity. Qed.

End IotTheorems.

(** *** The handler and the node on sample inputs *)

Section HandlerRuns.
Import Composer.

Example posix_basename_samples :
  posix_basename "/home/dev/app/template.yaml" = "template.yaml" ∧
  posix_basename "app/" = "app" ∧
  posix_basename "template.yaml" = "template.yaml" ∧
  posix_basename "//" = "".
Proof. by vm_compute. Qed.

Example init_run_expired :
  initMessageHandler posix_basename sample_context (sample_host "expired")
  = Fulfilled () {| chatAuthState := inr {| codewhispererChat := "expired" |};
                    outbox := [ (4%nat, sample_response) ] |}.
Proof. reflexivity. Qed.

Lemma init_response_names_the_template_sample :
  (4%nat, sample_response)
    ∈ posted (sample_host "connected")
        (initMessageHandler posix_basename sample_context (sample_host "connected")) ∧
  ∃ filePath fileName,
    field "templateFilePath" sample_response = Some (JsString filePath) ∧
    field "templateFileName" sample_response = Some (JsString fileName) ∧
    filePath = defaultTemplatePath sample_context ∧
    fileName = posix_basename filePath.
Proof.
  assert ((4%nat, sample_response)
            ∈ posted (sample_host "connected")
                (initMessageHandler posix_basename sample_context
                   (sample_host "connected"))) as Hin.
  { vm_compute. apply list_elem_of_here. }
  split; [exact Hin|].
  exact (init_response_names_the_template posix_basename sample_context
           (sample_host "connected") 4%nat sample_response Hin).
Defined.

Lemma init_posts_one_response_sample :
  initMessageHandler posix_basename sample_context (sample_host "disconnected")
  = Fulfilled () {| chatAuthState := inr {| codewhispererChat := "disconnected" |};
                    outbox := [ (4%nat,
                      [ ("messageType", MessageType_RESPONSE);
                        ("command", Command_INIT);
                        ("templateFileName", JsString "template.yaml");
                        ("templateFilePath", JsString "/home/dev/app/template.yaml");
                        ("isConnectedToCodeWhisperer", JsBoolean false) ]) ] |} ∧
  ∃ msg,
    [ (4%nat,
       [ ("messageType", MessageType_RESPONSE);
         ("command", Command_INIT);
         ("templateFileName", JsString "template.yaml");
         ("templateFilePath", JsString "/home/dev/app/template.yaml");
         ("isConnectedToCodeWhisperer", JsBoolean false) ]) ]
    = outbox (sample_host "disconnected") ++ [(panel sample_context, msg)] ∧
    msg.*1 = [ "messageType"; "command"; "templateFileName"; "templateFilePath";
               "isConnectedToCodeWhisperer" ] ∧
    field "messageType" msg = Some MessageType_RESPONSE ∧
    field "command" msg = Some Command_INIT.
Proof.
  split; [reflexivity|].
  exact (init_posts_one_response posix_basename sample_context
           (sample_host "disconnected") _ eq_refl).
Defined.

Lemma init_response_connected_flag_sample :
  chatAuthState (sample_host "expired") = inr {| codewhispererChat := "expired" |} ∧
  ∃ msg b,
    posted (sample_host "expired")
      (initMessageHandler posix_basename sample_context (sample_host "expired"))
    = [(panel sample_context, msg)] ∧
    field "isConnectedToCodeWhisperer" msg = Some (JsBoolean b) ∧
    (b = true ↔ codewhispererChat {| codewhispererChat := "expired" |} = "connected"
                ∨ codewhispererChat {| codewhispererChat := "expired" |} = "expired").
Proof.
  split; [reflexivity|].
  exact (init_response_connected_flag posix_basename sample_context
           (sample_host "expired") _ eq_refl).
Defined.

(** A rejected auth query: nothing is posted. *)
Example init_run_auth_failure :
  initMessageHandler posix_basename sample_context
    {| chatAuthState := inl "auth unavailable"; outbox := [] |}
  = Rejected "auth unavailable" {| chatAuthState := inl "auth unavailable"; outbox := [] |}.
Proof. reflexivity. Qed.

End HandlerRuns.

(** ** More on the notification info store *)

Section StoreCompositions.
Import Notifications.

Implicit Types (this : NotificationInfoStore) (w : World) (m : Memento).
Implicit Types (r record : NotificationInfoRecord) (n name k : string).

Lemma addNewViewToNotificationInWorkplaceStore_faultless this n w :
  faultless w = true →
  ∃ w' t, addNewViewToNotificationInWorkplaceStore this n w = Fulfilled () w' ∧
          faultless w' = true ∧
          clock w ≤ t ≤ clock w' ∧
          contents w' (workplaceStore this) !! (StorageKey +:+ n)
          = Some (let r := orEmpty n (contents w (workplaceStore this) !! (StorageKey +:+ n)) in
                  set_lastSeen t (set_viewsCounter (viewsCounter r + 1) r)).
Proof.
  intros Hw.
  apply (read_modify_write (workplaceStore this) (StorageKey +:+ n)
           (λ o now, set_lastSeen now
                       (set_viewsCounter (viewsCounter (orEmpty n o) + 1) (orEmpty n o))) w Hw).
Qed.

(** X1.  A new view of a notification that already has a record adds one
    to its [viewsCounter], sets [lastSeen] to a clock reading taken during
    the call, and keeps [notificationName] and [muted]; in the workplace
    memento and in the global one.  The counter is taken in the range
    where the [number] arithmetic of the source is exact: from -2^53 up to,
    but not including, 2^53. *)
Theorem addNewView_on_stored_record this name w r :
  faultless w = true →
  - 2 ^ 53 ≤ viewsCounter r < 2 ^ 53 →
  (contents w (workplaceStore this) !! (StorageKey +:+ name) = Some r →
   ∃ w' t, addNewViewToNotificationInWorkplaceStore this name w = Fulfilled () w' ∧
           clock w ≤ t ≤ clock w' ∧
           contents w' (workplaceStore this) !! (StorageKey +:+ name)
           = Some {| notificationName := notificationName r;
                     viewsCounter := viewsCounter r + 1;
                     lastSeen := t; muted := muted r |}) ∧
  (contents w (globalStore this) !! (StorageKey +:+ name) = Some r →
   ∃ w' t, addNewViewToNotificationInGlobalStore this name w = Fulfilled () w' ∧
           clock w ≤ t ≤ clock w' ∧
           contents w' (globalStore this) !! (StorageKey +:+ name)
           = Some {| notificationName := notificationName r;
                     viewsCounter := viewsCounter r + 1;
                     lastSeen := t; muted := muted r |}).
Proof.
  intros Hw _. split; intros Hstored.
  - destruct (addNewViewToNotificationInWorkplaceStore_faultless this name w Hw)
      as (w' & t & Hrun & _ & Ht & Hget).
    exists w', t. by rewrite Hget, Hstored.
  - destruct (addNewViewToNotificationInGlobalStore_faultless this name w Hw)
      as (w' & t & Hrun & _ & Ht & Hget).
    exists w', t. by rewrite Hget, Hstored.
Qed.

Lemma viewTimes_run this name (times : nat) w :
  faultless w = true →
  ∃ w', viewTimes this name times w = Fulfilled () w' ∧
        faultless w' = true ∧
        clock w ≤ clock w' ∧
        let key := StorageKey +:+ name in
        let before := orEmpty name (contents w (workplaceStore this) !! key) in
        let after := orEmpty name (contents w' (workplaceStore this) !! key) in
        viewsCounter after = viewsCounter before + Z.of_nat times ∧
        notificationName after = notificationName before ∧
        muted after = muted before ∧
        (times ≠ 0%nat → is_Some (contents w' (workplaceStore this) !! key) ∧
                     clock w ≤ lastSeen after ≤ clock w').
Proof.
  revert w. induction times as [|times IH]; intros w Hw.
  - exists w. simpl. split_and!; try done; lia.
  - destruct (addNewViewToNotificationInWorkplaceStore_faultless this name w Hw)
      as (w1 & t & Hrun & Hw1 & Ht & Hget).
    destruct (IH w1 Hw1) as (w' & Hrun' & Hw' & Hclock & Hcount & Hname & Hmuted & Hseen).
    exists w'. split.
    { simpl. unfold mbind, promise_bind, await. by rewrite Hrun. }
    split; [done|]. split; [lia|].
    rewrite Hget in Hcount, Hname, Hmuted. simpl in *.
    split; [lia|]. split; [done|]. split; [done|]. intros _.
    destruct times as [|times'].
    + simpl in Hrun'. injection Hrun' as <-. rewrite Hget. simpl. split; [eauto|lia].
    + destruct Hseen as [Hsome Hseen]; [done|]. split; [done|lia].
Qed.

(** X2.  [times] views in a row raise the counter by [times] (counting
    from 0 when there was no record) and touch neither the name nor the
    mute flag; when [times] is not 0 the record's [lastSeen] lies between
    the start of the first call and the end of the last.  The counter
    stays in the range where the [number] arithmetic of the source is
    exact: it starts at -2^53 or above and ends at 2^53 or below. *)
Theorem viewTimes_counts this name (times : nat) w :
  let key := StorageKey +:+ name in
  let before := orEmpty name (contents w (workplaceStore this) !! key) in
  faultless w = true →
  - 2 ^ 53 ≤ viewsCounter before →
  viewsCounter before + Z.of_nat times ≤ 2 ^ 53 →
  ∃ w', viewTimes this name times w = Fulfilled () w' ∧
        let after := orEmpty name (contents w' (workplaceStore this) !! key) in
        viewsCounter after = viewsCounter before + Z.of_nat times ∧
        notificationName after = notificationName before ∧
        muted after = muted before ∧
        (times ≠ 0%nat → is_Some (contents w' (workplaceStore this) !! key) ∧
                         clock w ≤ lastSeen after ≤ clock w').
Proof.
  intros key before Hw _ _.
  destruct (viewTimes_run this name times w Hw) as (w' & Hrun & _ & _ & Hrest).
  exists w'. split; [exact Hrun|exact Hrest].
Qed.

(** X3.  Setting the mute status twice leaves what setting it once to the
    last value leaves: the second call overwrites the first. *)
Theorem setMuteStatus_last_call_wins this name b1 b2 w :
  faultless w = true →
  ∃ w1 w2 w2',
    setMuteStatusInWorkplaceStore this name b1 w = Fulfilled () w1 ∧
    setMuteStatusInWorkplaceStore this name b2 w1 = Fulfilled () w2 ∧
    setMuteStatusInWorkplaceStore this name b2 w = Fulfilled () w2' ∧
    contents w2 (workplaceStore this) !! (StorageKey +:+ name)
    = contents w2' (workplaceStore this) !! (StorageKey +:+ name).
Proof.
  intros Hw.
  destruct (setMuteStatusInWorkplaceStore_faultless this name b1 w Hw)
    as (w1 & Hrun1 & Hw1 & Hget1).
  destruct (setMuteStatusInWorkplaceStore_faultless this name b2 w1 Hw1)
    as (w2 & Hrun2 & _ & Hget2).
  destruct (setMuteStatusInWorkplaceStore_faultless this name b2 w Hw)
    as (w2' & Hrun2' & _ & Hget2').
  exists w1, w2, w2'. split_and!; try done.
  by rewrite Hget2, Hget2', Hget1.
Qed.

(** X4.  The two kinds of update do not disturb each other: after
    [setMuteStatusInGlobalStore name b] and then a new view, the record is
    muted as set and its counter is one more than before (0 before, when
    there was no record).  The counter before is taken in the range where
    the [number] arithmetic of the source is exact: from -2^53 up to, but
    not including, 2^53. *)
Theorem mute_status_survives_a_view this name b w :
  faultless w = true →
  - 2 ^ 53
  ≤ viewsCounter (orEmpty name (contents w (globalStore this) !! (StorageKey +:+ name)))
  < 2 ^ 53 →
  ∃ w1 w2 r,
    setMuteStatusInGlobalStore this name b w = Fulfilled () w1 ∧
    addNewViewToNotificationInGlobalStore this name w1 = Fulfilled () w2 ∧
    contents w2 (globalStore this) !! (StorageKey +:+ name) = Some r ∧
    muted r = b ∧
    viewsCounter r
    = viewsCounter (orEmpty name (contents w (globalStore this) !! (StorageKey +:+ name))) + 1.
Proof.
  intros Hw _.
  destruct (setMuteStatusInGlobalStore_faultless this name b w Hw)
    as (w1 & Hrun1 & Hw1 & Hget1).
  destruct (addNewViewToNotificationInGlobalStore_faultless this name w1 Hw1)
    as (w2 & t & Hrun2 & _ & _ & Hget2).
  rewrite Hget1 in Hget2. simpl in Hget2.
  exists w1, w2. eexists. by split_and!.
Qed.

(** X5.  Reading never writes: whatever the host does, [getRecordFrom*]
    leaves every entry of every memento as it was; and on a host that does
    not fail it fulfils with the entry under the name's key, [undefined]
    when there is none. *)
Theorem getRecord_reads_only this name w :
  contents (world_of (getRecordFromGlobalStore this name w)) = contents w ∧
  contents (world_of (getRecordFromWorkplaceStore this name w)) = contents w ∧
  (faultless w = true →
   (∃ w', getRecordFromGlobalStore this name w
          = Fulfilled (contents w (globalStore this) !! (StorageKey +:+ name)) w') ∧
   (∃ w', getRecordFromWorkplaceStore this name w
          = Fulfilled (contents w (workplaceStore this) !! (StorageKey +:+ name)) w')).
Proof.
  split_and!.
  - unfold getRecordFromGlobalStore, memento_get, enter.
    by destruct (fault (hd quiet (script w))).
  - unfold getRecordFromWorkplaceStore, memento_get, enter.
    by destruct (fault (hd quiet (script w))).
  - intros Hw. split; eexists.
    + apply (memento_get_faultless _ _ w Hw).
    + apply (memento_get_faultless _ _ w Hw).
Qed.

(** X7.  [addRecordToGlobalStore] replaces whatever was stored under the
    record's name: after adding [r1] and then [r2], the entry of [r2]'s
    name is [r2], and [r1] is still there exactly when the names differ. *)
Theorem addRecord_replaces this r1 r2 w :
  faultless w = true →
  ∃ w1 w2,
    addRecordToGlobalStore this r1 w = Fulfilled () w1 ∧
    addRecordToGlobalStore this r2 w1 = Fulfilled () w2 ∧
    contents w2 (globalStore this) !! (StorageKey +:+ notificationName r2) = Some r2 ∧
    (notificationName r1 ≠ notificationName r2 →
     contents w2 (globalStore this) !! (StorageKey +:+ notificationName r1) = Some r1).
Proof.
  intros Hw. unfold addRecordToGlobalStore.
  rewrite (memento_update_faultless _ _ _ w Hw).
  destruct (enter_faultless
              (CallUpdate (globalStore this) (StorageKey +:+ notificationName r1) r1) w Hw)
    as [_ Hw1].
  eexists. eexists. split; [reflexivity|]. split.
  { apply memento_update_faultless. exact Hw1. }
  split; [apply store_entry_lookup|].
  intros Hne. rewrite store_entry_other.
  - apply store_entry_lookup.
  - intros Hk. apply Hne, StorageKey_inj. exact (f_equal snd Hk).
Qed.

End StoreCompositions.

(** *** The key of a record is the key of its name *)

Section StoreInvariant.
Import Notifications.

Implicit Types (this : NotificationInfoStore) (w : World) (m : Memento).
Implicit Types (r record : NotificationInfoRecord) (n name k : string).

Lemma triple_ret {A} (I : World → Prop) (a : A) (Q : A → Prop) :
  Q a → triple I (mret a) Q.
Proof. intros Ha w Hw. by split. Qed.

Lemma triple_bind {A B} (I : World → Prop) (p : Promise World A) (f : A → Promise World B)
    (Q : A → Prop) (R : B → Prop) :
  triple I p Q → (∀ a, Q a → triple I (f a) R) → triple I (p ≫= f) R.
Proof.
  intros Hp Hf w Hw. unfold mbind, promise_bind, await.
  specialize (Hp w Hw). destruct (p w) as [a w1|e w1]; [|done].
  destruct Hp as [Hw1 Ha]. by apply Hf.
Qed.

Lemma triple_weaken {A} (I : World → Prop) (p : Promise World A) (Q Q' : A → Prop) :
  (∀ a, Q a → Q' a) → triple I p Q → triple I p Q'.
Proof.
  intros HQ Hp w Hw. specialize (Hp w Hw).
  destruct (p w); [|done]. destruct Hp. auto.
Qed.

Lemma well_keyed_enter c w : well_keyed w → well_keyed (enter c w).2.
Proof. done. Qed.

Lemma well_keyed_store_entry m n r w :
  notificationName r = n → well_keyed w →
  well_keyed (store_entry m (StorageKey +:+ n) r w).
Proof.
  intros Hr Hw m' n' r'. simpl. case_decide as Hm; [|apply Hw].
  destruct (decide (n' = n)) as [->|Hn].
  - rewrite lookup_insert_eq. by intros [= <-].
  - rewrite lookup_insert_ne; [apply Hw|].
    intros Hk. by apply StorageKey_inj in Hk.
Qed.

Lemma triple_get m n :
  triple well_keyed (memento_get m (StorageKey +:+ n))
    (λ o, notificationName (orEmpty n o) = n).
Proof.
  intros w Hw. unfold memento_get.
  destruct (enter (CallGet m (StorageKey +:+ n)) w) as [t w1] eqn:E.
  assert (w1 = (enter (CallGet m (StorageKey +:+ n)) w).2) as -> by by rewrite E.
  destruct (fault t); [done|]. split; [done|].
  simpl. destruct (contents w m !! (StorageKey +:+ n)) as [r|] eqn:Hr; [|done].
  by apply Hw in Hr.
Qed.

Lemma triple_update m n r :
  notificationName r = n →
  triple well_keyed (memento_update m (StorageKey +:+ n) r) (λ _, True).
Proof.
  intros Hr w Hw. unfold memento_update.
  destruct (enter (CallUpdate m (StorageKey +:+ n) r) w) as [t w1] eqn:E.
  assert (w1 = (enter (CallUpdate m (StorageKey +:+ n) r) w).2) as -> by by rewrite E.
  destruct (fault t); [done|]. split; [|done].
  by apply well_keyed_store_entry.
Qed.

Lemma triple_Date_getTime (I : World → Prop) : triple I Date_getTime (λ _, True).
Proof. intros w Hw. by split. Qed.

(** X8.  If every record sits under the key of its own name, it still
    does after any method of the store, fulfilled or rejected: the methods
    never file a record under another notification's key. *)
Theorem methods_keep_records_under_their_name this op w :
  well_keyed w → well_keyed (world_of (run this op w)).
Proof.
  intros Hw.
  assert (triple well_keyed (run this op) (λ _, True)) as Hop.
  { destruct op; simpl; unfold void.
    - eapply triple_bind; [by apply triple_update|]. intros. by apply triple_ret.
    - eapply triple_bind; [by apply triple_update|]. intros. by apply triple_ret.
    - eapply triple_bind; [|intros; by apply triple_ret].
      eapply triple_bind; [apply triple_get|]. intros o Ho. by apply triple_update.
    - eapply triple_bind; [|intros; by apply triple_ret].
      eapply triple_bind; [apply triple_get|]. intros o Ho. by apply triple_update.
    - eapply triple_bind; [|intros; by apply triple_ret].
      eapply triple_bind; [apply triple_get|]. intros o Ho.
      eapply triple_bind; [apply triple_Date_getTime|]. intros now _.
      by apply triple_update.
    - eapply triple_bind; [|intros; by apply triple_ret].
      eapply triple_bind; [apply triple_get|]. intros o Ho.
      eapply triple_bind; [apply triple_Date_getTime|]. intros now _.
      by apply triple_update.
    - eapply triple_bind; [apply triple_get|]. intros. by apply triple_ret.
    - eapply triple_bind; [apply triple_get|]. intros. by apply triple_ret. }
  specialize (Hop w Hw). destruct (run this op w); [by destruct Hop|done].
Qed.

(** X9.  The host calls of each method, in order.  [addRecord*] makes one
    [update] with the record it was given and [getRecord*] one [get].  The
    read-modify-write methods first make a [get]; if it fails they stop,
    and otherwise they make one [update], whether or not it then succeeds,
    with the record they read (the empty record when there was none)
    carrying the new mute status, respectively the clock reading as
    [lastSeen].  All calls go to the method's memento under the key of the
    name. *)
Theorem methods_call_get_then_update this w :
  let first := hd quiet (script w) in
  let now := clock w + Z.of_N (elapsed first) in
  (∀ record,
     trace (world_of (addRecordToWorkplaceStore this record w))
     = trace w ++ [CallUpdate (workplaceStore this)
                     (StorageKey +:+ notificationName record) record]) ∧
  (∀ record,
     trace (world_of (addRecordToGlobalStore this record w))
     = trace w ++ [CallUpdate (globalStore this)
                     (StorageKey +:+ notificationName record) record]) ∧
  (∀ name,
     trace (world_of (getRecordFromGlobalStore this name w))
     = trace w ++ [CallGet (globalStore this) (StorageKey +:+ name)]) ∧
  (∀ name,
     trace (world_of (getRecordFromWorkplaceStore this name w))
     = trace w ++ [CallGet (workplaceStore this) (StorageKey +:+ name)]) ∧
  (∀ name isMuted,
     let m := workplaceStore this in
     let k := StorageKey +:+ name in
     trace (world_of (setMuteStatusInWorkplaceStore this name isMuted w))
     = trace w ++ CallGet m k ::
         match fault first with
         | Some _ => []
         | None => [CallUpdate m k (set_muted isMuted (orEmpty name (contents w m !! k)))]
         end) ∧
  (∀ name isMuted,
     let m := globalStore this in
     let k := StorageKey +:+ name in
     trace (world_of (setMuteStatusInGlobalStore this name isMuted w))
     = trace w ++ CallGet m k ::
         match fault first with
         | Some _ => []
         | None => [CallUpdate m k (set_muted isMuted (orEmpty name (contents w m !! k)))]
         end) ∧
  (∀ name,
     let m := workplaceStore this in
     let k := StorageKey +:+ name in
     ∃ v, trace (world_of (addNewViewToNotificationInWorkplaceStore this name w))
          = trace w ++ CallGet m k ::
              match fault first with
              | Some _ => []
              | None => [CallUpdate m k v]
              end
          ∧ lastSeen v = now
          ∧ muted v = muted (orEmpty name (contents w m !! k))
          ∧ notificationName v = notificationName (orEmpty name (contents w m !! k))) ∧
  (∀ name,
     let m := globalStore this in
     let k := StorageKey +:+ name in
     ∃ v, trace (world_of (addNewViewToNotificationInGlobalStore this name w))
          = trace w ++ CallGet m k ::
              match fault first with
              | Some _ => []
              | None => [CallUpdate m k v]
              end
          ∧ lastSeen v = now
          ∧ muted v = muted (orEmpty name (contents w m !! k))
          ∧ notificationName v = notificationName (orEmpty name (contents w m !! k))).
Proof.
  unfold addRecordToWorkplaceStore, addRecordToGlobalStore,
    setMuteStatusInWorkplaceStore, setMuteStatusInGlobalStore,
    addNewViewToNotificationInWorkplaceStore, addNewViewToNotificationInGlobalStore,
    getRecordFromGlobalStore, getRecordFromWorkplaceStore,
    mbind, promise_bind, await, Date_getTime, memento_get, memento_update, enter.
  simpl. split_and!; intros; try eexists;
    destruct (fault (hd quiet (script w))); simpl;
    try destruct (fault (hd quiet (tl (script w)))); simpl;
    rewrite <- ?app_assoc; try done; by split_and!.
Qed.

End StoreInvariant.

(** ** More on the init handler *)

Section HandlerFailure.
Import Composer.

Variable basename : string → string.

(** X10.  When the auth query fails the handler rejects with the error of
    the query and posts nothing: the host is left exactly as it was. *)
Theorem init_auth_failure_posts_nothing (context : WebviewContext) (h : Host) e :
  chatAuthState h = inl e →
  initMessageHandler basename context h = Rejected e h ∧
  posted h (initMessageHandler basename context h) = [].
Proof.
  intros Hauth. rewrite (initMessageHandler_rejects basename context h e Hauth).
  split; [done|]. unfold posted. simpl. apply drop_all.
Qed.

End HandlerFailure.

(** ** Extension utilities *)

Section UtilityTheorems.
Import ExtensionUtilities.

Implicit Types (env : Env) (s : State).

Ltac unfold_utilities :=
  unfold getIdeProperties, isCn, getComputeRegion, showWelcomeMessage,
    isDifferentVersion, setMostRecentVersion, promptQuickstart, initializeComputeRegion,
    showWarningMessage, logError, globalState_get, globalState_update,
    set_computeRegion, call_getInstanceIdentity, try_catch, throw,
    mbind, promise_bind, await, mret, promise_ret, resolve.

Lemma appName_is_true env name : appName_is env name = true ↔ appName env = Some name.
Proof.
  unfold appName_is. destruct (appName env) as [a|]; [|done].
  rewrite String.eqb_eq. split; congruence.
Qed.

(** X11.  Which IDE is detected.  Cloud9 wins over everything else and can
    be forced by the [forceCloud9] setting; SageMaker is recognised by its
    exact application name; any application name that starts with "Visual
    Studio Code" is VS Code; the rest, a missing name included, is
    unknown. *)
Theorem getIdeType_cases env :
  (getIdeType env = cloud9
   ↔ appName env = Some cloud9Appname ∨ appName env = Some cloud9CnAppname
     ∨ forceCloud9 env = true) ∧
  (getIdeType env = sagemaker
   ↔ appName env = Some sageMakerAppname ∧ forceCloud9 env = false) ∧
  (getIdeType env = vscode
   ↔ forceCloud9 env = false
     ∧ ∃ a, appName env = Some a ∧ String.prefix vscodeAppname a = true) ∧
  (getIdeType env = unknown
   ↔ forceCloud9 env = false
     ∧ ∀ a, appName env = Some a →
            a ≠ cloud9Appname ∧ a ≠ cloud9CnAppname ∧ a ≠ sageMakerAppname
            ∧ String.prefix vscodeAppname a = false).
Proof.
  unfold getIdeType, appName_is.
  destruct (forceCloud9 env), (appName env) as [a|]; simpl; rewrite ?orb_true_r; simpl;
    try destruct (String.eqb_spec a cloud9Appname) as [->|H1]; simpl;
    try destruct (String.eqb_spec a cloud9CnAppname) as [->|H2]; simpl;
    try destruct (String.eqb_spec a sageMakerAppname) as [->|H3]; simpl;
    try destruct (String.prefix vscodeAppname a) eqn:Hp;
    split_and!; (split; intros H; simplify_eq; try done);
    try solve
      [ destruct_and?; destruct_or?; simplify_eq; eauto
      | destruct H as [_ (a0 & [= <-] & Hf)]; first [congruence | by vm_compute in Hf]
      | destruct H as [_ H]; destruct (H _ eq_refl) as (Ha & Hb & Hc & Hf); congruence
      | split; [done|]; by intros a0 [= <-] ].
Qed.

(** X12.  The flavours of Cloud9 partition it: [isCloud9('any')] holds
    exactly when one of [isCloud9('classic')], [isCloud9('codecatalyst')]
    does, never both, and the CodeCatalyst flavour is Cloud9 with a dev
    environment id. *)
Theorem isCloud9_flavours env :
  isCloud9 env any = isCloud9 env classic || isCloud9 env codecatalyst ∧
  isCloud9 env classic && isCloud9 env codecatalyst = false ∧
  (isCloud9 env any = true ↔ getIdeType env = cloud9) ∧
  (isCloud9 env codecatalyst = true
   ↔ getIdeType env = cloud9 ∧ is_Some (codeCatalystDevEnvId env)).
Proof.
  unfold isCloud9.
  destruct (getIdeType env), (codeCatalystDevEnvId env); simpl;
    split_and!; try done;
    (split; [intros Hflavour; try done; by split; [|eauto]
            |intros [Hide Hid]; try done; by apply is_Some_None in Hid]).
Qed.

(** X13.  [isSageMaker] looks at the application name only, so under
    [forceCloud9] a SageMaker editor is SageMaker and Cloud9 at once, while
    [getIdeType] says Cloud9; without the setting the two agree. *)
Theorem isSageMaker_and_cloud9 env :
  (isSageMaker env = true ↔ appName env = Some sageMakerAppname) ∧
  (isSageMaker env = true →
   getIdeType env = if forceCloud9 env then cloud9 else sagemaker) ∧
  (isSageMaker env = true ∧ isCloud9 env any = true
   ↔ appName env = Some sageMakerAppname ∧ forceCloud9 env = true).
Proof.
  assert (isSageMaker env = true →
          getIdeType env = if forceCloud9 env then cloud9 else sagemaker) as Hide.
  { unfold isSageMaker. intros Hsm%appName_is_true.
    unfold getIdeType, appName_is. rewrite Hsm. by destruct (forceCloud9 env). }
  split; [apply appName_is_true|]. split; [exact Hide|].
  unfold isSageMaker at 1. rewrite appName_is_true. split.
  - intros [Hsm Hc9]. split; [done|].
    apply appName_is_true in Hsm. apply Hide in Hsm.
    unfold isCloud9 in Hc9. rewrite Hsm in Hc9. by destruct (forceCloud9 env).
  - intros [Hsm Hforce]. split; [done|].
    apply appName_is_true in Hsm. apply Hide in Hsm.
    unfold isCloud9. rewrite Hsm, Hforce. done.
Qed.

(** *** The compute region *)

Variable localize : string → string → list string → string.

(** X14.  Before [initializeComputeRegion] has run, asking for the region
    throws, and so does everything that asks: [isCn], and
    [getIdeProperties] on Cloud9 and SageMaker.  The state is left as it
    was. *)
Theorem region_needed_before_initialization env s :
  computeRegion s = Some notInitialized →
  let e := "Attempted to get compute region without initializing." in
  getComputeRegion s = Rejected e s ∧
  isCn s = Rejected e s ∧
  (getIdeType env = cloud9 ∨ getIdeType env = sagemaker →
   getIdeProperties env localize s = Rejected e s).
Proof.
  intros Hregion. unfold_utilities. rewrite Hregion. simpl.
  split_and!; try done. intros [-> | ->]; by rewrite Hregion.
Qed.

(** X15.  On VS Code and on an unknown IDE [getIdeProperties] never asks
    for the region: it answers with the VS Code wording in every state,
    also before the region is initialized. *)
Theorem getIdeProperties_on_desktop env s :
  getIdeType env = vscode ∨ getIdeType env = unknown →
  getIdeProperties env localize s
  = Fulfilled
      {| shortName := localize "AWS.vscode.shortName" "VS Code" [];
         longName := localize "AWS.vscode.longName" "Visual Studio Code" [];
         commandPalette := localize "AWS.vscode.commandPalette" "Command Palette" [];
         codelens := localize "AWS.vscode.codelens" "CodeLens" [];
         codelenses := localize "AWS.vscode.codelenses" "CodeLenses" [];
         company := localize "AWS.title" "AWS" [] |} s.
Proof. unfold getIdeProperties. by intros [-> | ->]. Qed.

(** X16.  On Cloud9 and SageMaker with an initialized region, the company
    is the [AWS.title.cn] wording ("Amazon") exactly when the region
    starts with "cn" and the [AWS.title] wording ("AWS") otherwise, a
    missing region included; the other wordings are those of
    [createCloud9Properties], respectively [createSageMakerProperties], for
    that company. *)
Theorem getIdeProperties_company env s :
  computeRegion s ≠ Some notInitialized →
  getIdeType env = cloud9 ∨ getIdeType env = sagemaker →
  let cn := match computeRegion s with
            | Some r => String.prefix "cn" r
            | None => false
            end in
  let company := if cn then localize "AWS.title.cn" "Amazon" []
                 else localize "AWS.title" "AWS" [] in
  getIdeProperties env localize s
  = Fulfilled (match getIdeType env with
               | cloud9 => createCloud9Properties localize company
               | _ => createSageMakerProperties localize company
               end) s.
Proof.
  intros Hregion Hide. unfold_utilities.
  destruct (computeRegion s) as [r|] eqn:E; simpl.
  - destruct Hide as [-> | ->]; rewrite E;
      (destruct (String.eqb_spec r notInitialized) as [->|_]; [done|]);
      by destruct (String.prefix "cn" r).
  - destruct Hide as [-> | ->]; by rewrite E.
Qed.

Lemma getComputeRegion_rejects s :
  (∃ e, getComputeRegion s = Rejected e s) ↔ computeRegion s = Some notInitialized.
Proof.
  unfold getComputeRegion. destruct (computeRegion s) as [r|].
  - destruct (String.eqb_spec r notInitialized) as [->|Hr].
    + split; eauto.
    + split; [by intros [e ?]|congruence].
  - split; [by intros [e ?]|done].
Qed.

Lemma getComputeRegion_fulfils s :
  (∃ r, getComputeRegion s = Fulfilled r s) ↔ computeRegion s ≠ Some notInitialized.
Proof.
  unfold getComputeRegion. destruct (computeRegion s) as [r|].
  - destruct (String.eqb_spec r notInitialized) as [->|Hr].
    + split; [by intros [r ?]|done].
    + split; [congruence|eauto].
  - split; [done|eauto].
Qed.

Lemma initializeComputeRegion_run env metadata isC9 isSM s :
  initializeComputeRegion env metadata isC9 isSM s
  = Fulfilled ()
      {| computeRegion :=
           if default (isCloud9 env any) isC9 || default (isSageMaker env) isSM
           then Some match getInstanceIdentity (default (defaultMetadata env) metadata) with
                     | inl _ => "unknown"
                     | inr identity =>
                         if truthy (region identity) then region identity else "unknown"
                     end
           else None;
         globalState := globalState s; warnings := warnings s; logged := logged s |}.
Proof.
  unfold_utilities.
  destruct (default (isCloud9 env any) isC9 || default (isSageMaker env) isSM); [|done].
  by destruct (getInstanceIdentity (default (defaultMetadata env) metadata)).
Qed.

(** X17.  [initializeComputeRegion] never throws and writes nothing but the
    region.  Outside Cloud9 and SageMaker the region becomes [undefined];
    inside, it becomes the region the metadata service reports, or
    ["unknown"] when the service fails or reports an empty region. *)
Theorem initializeComputeRegion_outcome env metadata isC9 isSM s :
  let inCloud := default (isCloud9 env any) isC9 || default (isSageMaker env) isSM in
  let client := default (defaultMetadata env) metadata in
  ∃ s',
    initializeComputeRegion env metadata isC9 isSM s = Fulfilled () s' ∧
    globalState s' = globalState s ∧ warnings s' = warnings s ∧ logged s' = logged s ∧
    computeRegion s'
    = if inCloud
      then Some match getInstanceIdentity client with
                | inl _ => "unknown"
                | inr identity =>
                    if decide (region identity = "") then "unknown" else region identity
                end
      else None.
Proof.
  intros inCloud client. eexists. split; [apply initializeComputeRegion_run|].
  simpl. fold inCloud client. split_and!; try done.
  destruct inCloud; [|done]. destruct (getInstanceIdentity client) as [e|identity]; [done|].
  unfold truthy. destruct (String.eqb_spec (region identity) ""); by case_decide.
Qed.

(** X18.  After [initializeComputeRegion], [getComputeRegion] throws in one
    case only: inside Cloud9 or SageMaker, when the metadata service
    reports a region that is literally "notInitialized", the marker of an
    unset region. *)
Theorem getComputeRegion_after_initialization env metadata isC9 isSM s :
  let inCloud := default (isCloud9 env any) isC9 || default (isSageMaker env) isSM in
  let client := default (defaultMetadata env) metadata in
  ∃ s',
    initializeComputeRegion env metadata isC9 isSM s = Fulfilled () s' ∧
    ((∃ e, getComputeRegion s' = Rejected e s')
     ↔ inCloud = true
       ∧ ∃ identity, getInstanceIdentity client = inr identity
                     ∧ region identity = notInitialized) ∧
    ((∃ r, getComputeRegion s' = Fulfilled r s')
     ↔ ¬ (inCloud = true
          ∧ ∃ identity, getInstanceIdentity client = inr identity
                        ∧ region identity = notInitialized)).
Proof.
  intros inCloud client. eexists. split; [apply initializeComputeRegion_run|].
  rewrite getComputeRegion_rejects, getComputeRegion_fulfils. simpl.
  fold inCloud client.
  assert ((if inCloud
           then Some match getInstanceIdentity client with
                     | inl _ => "unknown"
                     | inr identity =>
                         if truthy (region identity) then region identity else "unknown"
                     end
           else None) = Some notInitialized
          ↔ inCloud = true
            ∧ ∃ identity, getInstanceIdentity client = inr identity
                          ∧ region identity = notInitialized) as Hiff.
  { destruct inCloud; [|split; [done|by intros [? _]]].
    destruct (getInstanceIdentity client) as [e|identity].
    - split; [done|]. by intros [_ (? & ? & _)].
    - destruct (truthy (region identity)) eqn:Ht.
      + split.
        * intros [= Hr]. eauto.
        * intros [_ (? & [= <-] & ->)]. done.
      + split; [done|]. intros [_ (? & [= <-] & Hr)].
        rewrite Hr in Ht. done. }
  by rewrite Hiff.
Qed.

(** X19.  [isCn] after [initializeComputeRegion], the case of X18 left
    aside: the answer is [true] exactly inside Cloud9 or SageMaker when
    the metadata service reports a region that starts with "cn"; outside,
    and when the service fails, it is [false]. *)
Theorem isCn_after_initialization env metadata isC9 isSM s :
  let inCloud := default (isCloud9 env any) isC9 || default (isSageMaker env) isSM in
  let client := default (defaultMetadata env) metadata in
  ¬ (inCloud = true
     ∧ ∃ identity, getInstanceIdentity client = inr identity
                   ∧ region identity = notInitialized) →
  ∃ s',
    initializeComputeRegion env metadata isC9 isSM s = Fulfilled () s' ∧
    isCn s'
    = Fulfilled (inCloud && match getInstanceIdentity client with
                            | inl _ => false
                            | inr identity => String.prefix "cn" (region identity)
                            end) s'.
Proof.
  intros inCloud client Hmarker. eexists. split; [apply initializeComputeRegion_run|].
  fold inCloud client. unfold isCn, getComputeRegion, mbind, promise_bind, await.
  simpl. destruct inCloud; [|done].
  destruct (getInstanceIdentity client) as [e|identity]; [done|].
  unfold truthy. destruct (String.eqb_spec (region identity) "") as [->|_]; simpl; [done|].
  destruct (String.eqb_spec (region identity) notInitialized) as [Hn|_]; [|done].
  destruct Hmarker. eauto.
Qed.

End UtilityTheorems.

(** *** The most recent version and the welcome message *)

Section WelcomeTheorems.
Import ExtensionUtilities.

Implicit Types (env : Env) (s : State).

Variable localize : string → string → list string → string.

(** X20.  Once [setMostRecentVersion] has recorded the running version,
    [isDifferentVersion] answers [false] for it and [true] for any other
    version.  The exception is an empty version string: it is recorded but
    read back as "nothing recorded", so the answer stays [true]. *)
Theorem version_recorded_is_not_different env s :
  ∃ s',
    setMostRecentVersion env s = Fulfilled () s' ∧
    globalState s' !! mostRecentVersionKey = Some (extensionVersion env) ∧
    isDifferentVersion env None s'
    = Fulfilled (bool_decide (extensionVersion env = "")) s' ∧
    (∀ other, other ≠ extensionVersion env →
              isDifferentVersion env (Some other) s' = Fulfilled true s').
Proof.
  eexists. split; [reflexivity|]. simpl. split; [apply lookup_insert_eq|].
  unfold isDifferentVersion, globalState_get, mbind, promise_bind, await, truthy. simpl.
  rewrite lookup_insert_eq. split.
  - rewrite String.eqb_refl, andb_true_r.
    destruct (String.eqb_spec (extensionVersion env) ""); by case_bool_decide.
  - intros other Hother.
    destruct (String.eqb_spec (extensionVersion env) other) as [Heq|_]; [congruence|].
    by rewrite andb_false_r.
Qed.

(** X22.  For the alpha version (outside CodeCatalyst), when the IDE
    wording can be computed, [showWelcomeMessage] shows exactly one
    warning, worded for the IDE's company, and records nothing. *)
Theorem showWelcomeMessage_alpha_warns env s properties :
  codeCatalystDevEnvId env = None →
  installedVersion env = Some (extensionAlphaVersion env) →
  getIdeProperties env localize s = Fulfilled properties s →
  showWelcomeMessage env localize s
  = Fulfilled ()
      {| computeRegion := computeRegion s; globalState := globalState s;
         warnings := warnings s ++
           [ localize "AWS.startup.toastIfAlpha"
               "{0} Toolkit PREVIEW. (To get the latest STABLE version, uninstall this version.)"
               [company properties] ];
         logged := logged s |}.
Proof.
  intros Hcc Halpha Hprops. unfold showWelcomeMessage.
  rewrite Hcc, Halpha, String.eqb_refl.
  unfold mbind, promise_bind, await. by rewrite Hprops.
Qed.

(** X24.  The alpha branch is outside the [try]: for the alpha version on
    Cloud9 or SageMaker with the region not yet initialized,
    [showWelcomeMessage] throws, and nothing is shown or recorded. *)
Theorem showWelcomeMessage_alpha_throws env s :
  codeCatalystDevEnvId env = None →
  installedVersion env = Some (extensionAlphaVersion env) →
  computeRegion s = Some notInitialized →
  getIdeType env = cloud9 ∨ getIdeType env = sagemaker →
  showWelcomeMessage env localize s
  = Rejected "Attempted to get compute region without initializing." s.
Proof.
  intros Hcc Halpha Hregion Hide. unfold showWelcomeMessage.
  rewrite Hcc, Halpha, String.eqb_refl.
  unfold getIdeProperties, isCn, getComputeRegion, mbind, promise_bind, await.
  destruct Hide as [-> | ->]; by rewrite Hregion.
Qed.

(** X23.  In a CodeCatalyst dev environment [showWelcomeMessage] does
    nothing at all; and in every environment it writes no entry other than
    the most recent version, never touches the compute region and shows at
    most one warning. *)
Theorem showWelcomeMessage_footprint env s :
  (is_Some (codeCatalystDevEnvId env) → showWelcomeMessage env localize s = Fulfilled () s) ∧
  let s' := world_of (showWelcomeMessage env localize s) in
  (∀ key, key ≠ mostRecentVersionKey → globalState s' !! key = globalState s !! key) ∧
  computeRegion s' = computeRegion s ∧
  (∃ shown, warnings s' = warnings s ++ shown ∧ (length shown ≤ 1)%nat).
Proof.
  split.
  { intros [id Hid]. unfold showWelcomeMessage. by rewrite Hid. }
  assert (world_of (getIdeProperties env localize s) = s) as Hprops.
  { unfold getIdeProperties, isCn, getComputeRegion, mbind, promise_bind, await.
    destruct (getIdeType env); try done;
      destruct (computeRegion s) as [r|]; simpl; try done;
      destruct (String.eqb r notInitialized); simpl; try done;
      by destruct (String.prefix "cn" r). }
  unfold showWelcomeMessage.
  destruct (codeCatalystDevEnvId env) as [id|]; simpl.
  { split_and!; try done. exists []. rewrite app_nil_r. split; [done|simpl; lia]. }
  destruct (match installedVersion env with
            | Some v => String.eqb v (extensionAlphaVersion env)
            | None => false
            end).
  - unfold mbind, promise_bind, await.
    destruct (getIdeProperties env localize s) as [p s1|e s1]; simpl in Hprops; subst s1.
    + simpl. split_and!; try done. eexists [_]. split; [done|simpl; lia].
    + simpl. split_and!; try done. exists []. rewrite app_nil_r. split; [done|simpl; lia].
  - unfold try_catch, isDifferentVersion, globalState_get, setMostRecentVersion,
      globalState_update, promptQuickstart, mbind, promise_bind, await, resolve. simpl.
    destruct (match globalState s !! mostRecentVersionKey with
              | Some v => truthy v && String.eqb v (extensionVersion env)
              | None => false
              end); simpl.
    + split_and!; try done. exists []. rewrite app_nil_r. split; [done|simpl; lia].
    + destruct (negb (isCloud9 env any)); simpl;
        (split_and!; [intros; by apply lookup_insert_ne|done|exists []; rewrite app_nil_r; split; [done|simpl; lia] ]).
Qed.

End WelcomeTheorems.

(** ** The added properties on the sample hosts *)

Section MoreStoreRuns.
Import Notifications.

Lemma addNewView_on_stored_record_sample :
  faultless seen_world = true ∧
  - 2 ^ 53 ≤ viewsCounter sample_record < 2 ^ 53 ∧
  contents seen_world (workplaceStore sample_store) !! (StorageKey +:+ "welcome")
  = Some sample_record ∧
  contents seen_world (globalStore sample_store) !! (StorageKey +:+ "welcome")
  = Some sample_record ∧
  (∃ w' t, addNewViewToNotificationInWorkplaceStore sample_store "welcome" seen_world
           = Fulfilled () w' ∧
           clock seen_world ≤ t ≤ clock w' ∧
           contents w' (workplaceStore sample_store) !! (StorageKey +:+ "welcome")
           = Some {| notificationName := "welcome"; viewsCounter := 7 + 1;
                     lastSeen := t; muted := true |}) ∧
  (∃ w' t, addNewViewToNotificationInGlobalStore sample_store "welcome" seen_world
           = Fulfilled () w' ∧
           clock seen_world ≤ t ≤ clock w' ∧
           contents w' (globalStore sample_store) !! (StorageKey +:+ "welcome")
           = Some {| notificationName := "welcome"; viewsCounter := 7 + 1;
                     lastSeen := t; muted := true |}).
Proof.
  assert (- 2 ^ 53 ≤ viewsCounter sample_record < 2 ^ 53) as Hsafe by (simpl; lia).
  split; [reflexivity|]. split; [exact Hsafe|].
  split; [by vm_compute|]. split; [by vm_compute|].
  destruct (addNewView_on_stored_record sample_store "welcome" seen_world sample_record
              eq_refl Hsafe) as [HW HG].
  split; [apply HW|apply HG]; by vm_compute.
Defined.

Lemma viewTimes_counts_sample :
  let key := StorageKey +:+ "welcome" in
  let before := orEmpty "welcome" (contents seen_world (workplaceStore sample_store) !! key) in
  faultless seen_world = true ∧
  - 2 ^ 53 ≤ viewsCounter before ∧
  viewsCounter before + Z.of_nat 3 ≤ 2 ^ 53 ∧
  ∃ w', viewTimes sample_store "welcome" 3 seen_world = Fulfilled () w' ∧
        let after := orEmpty "welcome" (contents w' (workplaceStore sample_store) !! key) in
        viewsCounter after = viewsCounter before + Z.of_nat 3 ∧
        notificationName after = notificationName before ∧
        muted after = muted before ∧
        (3%nat ≠ 0%nat → is_Some (contents w' (workplaceStore sample_store) !! key) ∧
                         clock seen_world ≤ lastSeen after ≤ clock w').
Proof.
  intros key before.
  assert (- 2 ^ 53 ≤ viewsCounter before) as Hlow by by vm_compute.
  assert (viewsCounter before + Z.of_nat 3 ≤ 2 ^ 53) as Hhigh by by vm_compute.
  split; [reflexivity|]. split; [exact Hlow|]. split; [exact Hhigh|].
  exact (viewTimes_counts sample_store "welcome" 3 seen_world eq_refl Hlow Hhigh).
Defined.

Lemma setMuteStatus_last_call_wins_sample :
  faultless seen_world = true ∧
  ∃ w1 w2 w2',
    setMuteStatusInWorkplaceStore sample_store "welcome" true seen_world = Fulfilled () w1 ∧
    setMuteStatusInWorkplaceStore sample_store "welcome" false w1 = Fulfilled () w2 ∧
    setMuteStatusInWorkplaceStore sample_store "welcome" false seen_world = Fulfilled () w2' ∧
    contents w2 (workplaceStore sample_store) !! (StorageKey +:+ "welcome")
    = contents w2' (workplaceStore sample_store) !! (StorageKey +:+ "welcome").
Proof.
  split; [reflexivity|].
  apply (setMuteStatus_last_call_wins sample_store "welcome" true false seen_world).
  reflexivity.
Defined.

Lemma mute_status_survives_a_view_sample :
  faultless seen_world = true ∧
  - 2 ^ 53
  ≤ viewsCounter (orEmpty "welcome"
                    (contents seen_world (globalStore sample_store)
                       !! (StorageKey +:+ "welcome")))
  < 2 ^ 53 ∧
  ∃ w1 w2 r,
    setMuteStatusInGlobalStore sample_store "welcome" false seen_world = Fulfilled () w1 ∧
    addNewViewToNotificationInGlobalStore sample_store "welcome" w1 = Fulfilled () w2 ∧
    contents w2 (globalStore sample_store) !! (StorageKey +:+ "welcome") = Some r ∧
    muted r = false ∧
    viewsCounter r
    = viewsCounter (orEmpty "welcome"
                      (contents seen_world (globalStore sample_store)
                         !! (StorageKey +:+ "welcome"))) + 1.
Proof.
  assert (- 2 ^ 53
          ≤ viewsCounter (orEmpty "welcome"
                            (contents seen_world (globalStore sample_store)
                               !! (StorageKey +:+ "welcome")))
          < 2 ^ 53) as Hsafe by (split; by vm_compute).
  split; [reflexivity|]. split; [exact Hsafe|].
  exact (mute_status_survives_a_view sample_store "welcome" false seen_world eq_refl Hsafe).
Defined.

Lemma getRecord_reads_only_sample :
  faultless fresh_world = true ∧
  contents (world_of (getRecordFromGlobalStore sample_store "hello" fresh_world))
  = contents fresh_world ∧
  contents (world_of (getRecordFromWorkplaceStore sample_store "hello" fresh_world))
  = contents fresh_world ∧
  (∃ w', getRecordFromGlobalStore sample_store "hello" fresh_world
         = Fulfilled (contents fresh_world (globalStore sample_store)
                        !! (StorageKey +:+ "hello")) w') ∧
  (∃ w', getRecordFromWorkplaceStore sample_store "hello" fresh_world
         = Fulfilled (contents fresh_world (workplaceStore sample_store)
                        !! (StorageKey +:+ "hello")) w').
Proof.
  split; [reflexivity|].
  destruct (getRecord_reads_only sample_store "hello" fresh_world) as (HG & HW & Hread).
  split; [exact HG|]. split; [exact HW|]. exact (Hread eq_refl).
Defined.

Lemma addRecord_replaces_sample :
  faultless seen_world = true ∧
  notificationName sample_record ≠ notificationName (getEmptyRecord "hello") ∧
  ∃ w1 w2,
    addRecordToGlobalStore sample_store sample_record seen_world = Fulfilled () w1 ∧
    addRecordToGlobalStore sample_store (getEmptyRecord "hello") w1 = Fulfilled () w2 ∧
    contents w2 (globalStore sample_store)
      !! (StorageKey +:+ notificationName (getEmptyRecord "hello"))
    = Some (getEmptyRecord "hello") ∧
    contents w2 (globalStore sample_store)
      !! (StorageKey +:+ notificationName sample_record)
    = Some sample_record.
Proof.
  assert (notificationName sample_record ≠ notificationName (getEmptyRecord "hello"))
    as Hne by (simpl; discriminate).
  split; [reflexivity|]. split; [exact Hne|].
  destruct (addRecord_replaces sample_store sample_record (getEmptyRecord "hello")
              seen_world eq_refl) as (w1 & w2 & H1 & H2 & Hnew & Hold).
  exists w1, w2. split; [exact H1|]. split; [exact H2|]. split; [exact Hnew|].
  exact (Hold Hne).
Defined.

Lemma fresh_world_well_keyed : well_keyed fresh_world.
Proof. intros m n r Hr. simpl in Hr. by rewrite lookup_empty in Hr. Qed.

Lemma methods_keep_records_under_their_name_sample :
  well_keyed fresh_world ∧
  well_keyed (world_of (run sample_store (AddRecordToGlobalStore sample_record)
                          fresh_world)).
Proof.
  split; [exact fresh_world_well_keyed|].
  exact (methods_keep_records_under_their_name sample_store
           (AddRecordToGlobalStore sample_record) fresh_world fresh_world_well_keyed).
Defined.

(** The calls of a mute on a host whose [update] fails: the [update] was
    attempted, after the [get]. *)
Example calls_of_a_failed_mute :
  trace (world_of (setMuteStatusInWorkplaceStore sample_store "welcome" true failing_world))
  = [ CallGet 1%nat "NOTIFICATION_INFO_welcome";
      CallUpdate 1%nat "NOTIFICATION_INFO_welcome"
        {| notificationName := "welcome"; viewsCounter := 0; lastSeen := 0;
           muted := true |} ].
Proof. reflexivity. Qed.

End MoreStoreRuns.

Section MoreHandlerRuns.
Import Composer.

Lemma init_auth_failure_posts_nothing_sample :
  chatAuthState failed_auth_host = inl "auth unavailable" ∧
  initMessageHandler posix_basename sample_context failed_auth_host
  = Rejected "auth unavailable" failed_auth_host ∧
  posted failed_auth_host
    (initMessageHandler posix_basename sample_context failed_auth_host) = [].
Proof.
  split; [reflexivity|].
  exact (init_auth_failure_posts_nothing posix_basename sample_context failed_auth_host
           "auth unavailable" eq_refl).
Defined.

End MoreHandlerRuns.

Section UtilityRuns.
Import ExtensionUtilities.

Lemma getIdeType_cases_sample :
  (forceCloud9 desktop_env = false
   ∧ ∃ a, appName desktop_env = Some a ∧ String.prefix vscodeAppname a = true) ∧
  getIdeType desktop_env = vscode.
Proof.
  assert (forceCloud9 desktop_env = false
          ∧ ∃ a, appName desktop_env = Some a ∧ String.prefix vscodeAppname a = true)
    as Hdesktop.
  { split; [reflexivity|]. eexists. split; reflexivity. }
  split; [exact Hdesktop|].
  destruct (getIdeType_cases desktop_env) as (_ & _ & Hvscode & _).
  exact (proj2 Hvscode Hdesktop).
Defined.

Lemma isCloud9_flavours_sample :
  (getIdeType forced_sagemaker_env = cloud9
   ∧ is_Some (codeCatalystDevEnvId forced_sagemaker_env)) ∧
  isCloud9 forced_sagemaker_env codecatalyst = true ∧
  isCloud9 forced_sagemaker_env classic && isCloud9 forced_sagemaker_env codecatalyst = false.
Proof.
  assert (getIdeType forced_sagemaker_env = cloud9
          ∧ is_Some (codeCatalystDevEnvId forced_sagemaker_env)) as Hcodecat.
  { split; [reflexivity|]. eexists. reflexivity. }
  split; [exact Hcodecat|].
  destruct (isCloud9_flavours forced_sagemaker_env) as (_ & Hexclusive & _ & Hiff).
  split; [exact (proj2 Hiff Hcodecat)|exact Hexclusive].
Defined.

Lemma isSageMaker_and_cloud9_sample :
  isSageMaker forced_sagemaker_env = true ∧
  getIdeType forced_sagemaker_env = cloud9 ∧
  isCloud9 forced_sagemaker_env any = true.
Proof.
  destruct (isSageMaker_and_cloud9 forced_sagemaker_env) as (_ & Hide & Hboth).
  split; [reflexivity|]. split; [exact (Hide eq_refl)|].
  exact (proj2 (proj2 Hboth (conj eq_refl eq_refl))).
Defined.

Lemma region_needed_before_initialization_sample :
  computeRegion initial_state = Some notInitialized ∧
  (getIdeType cloud9_cn_env = cloud9 ∨ getIdeType cloud9_cn_env = sagemaker) ∧
  getComputeRegion initial_state
  = Rejected "Attempted to get compute region without initializing." initial_state ∧
  isCn initial_state
  = Rejected "Attempted to get compute region without initializing." initial_state ∧
  getIdeProperties cloud9_cn_env default_localize initial_state
  = Rejected "Attempted to get compute region without initializing." initial_state.
Proof.
  destruct (region_needed_before_initialization default_localize cloud9_cn_env
              initial_state eq_refl) as (Hget & Hcn & Hprops).
  split; [reflexivity|]. split; [left; reflexivity|].
  split; [exact Hget|]. split; [exact Hcn|]. apply Hprops. left. reflexivity.
Defined.

Lemma getIdeProperties_on_desktop_sample :
  (getIdeType desktop_env = vscode ∨ getIdeType desktop_env = unknown) ∧
  getIdeProperties desktop_env default_localize initial_state
  = Fulfilled {| shortName := "VS Code"; longName := "Visual Studio Code";
                 commandPalette := "Command Palette"; codelens := "CodeLens";
                 codelenses := "CodeLenses"; company := "AWS" |} initial_state.
Proof.
  split; [left; reflexivity|].
  apply (getIdeProperties_on_desktop default_localize desktop_env initial_state).
  left. reflexivity.
Defined.

Lemma getIdeProperties_company_sample :
  computeRegion cn_state ≠ Some notInitialized ∧
  (getIdeType cloud9_cn_env = cloud9 ∨ getIdeType cloud9_cn_env = sagemaker) ∧
  getIdeProperties cloud9_cn_env default_localize cn_state
  = Fulfilled {| shortName := "Cloud9"; longName := "Amazon Cloud9";
                 commandPalette := "Go to Anything Panel"; codelens := "Inline Action";
                 codelenses := "Inline Actions"; company := "Amazon" |} cn_state.
Proof.
  assert (computeRegion cn_state ≠ Some notInitialized) as Hregion by discriminate.
  split; [exact Hregion|]. split; [left; reflexivity|].
  apply (getIdeProperties_company default_localize cloud9_cn_env cn_state Hregion).
  left. reflexivity.
Defined.

Lemma initializeComputeRegion_outcome_sample :
  ∃ s',
    initializeComputeRegion cloud9_cn_env None None None initial_state = Fulfilled () s' ∧
    globalState s' = globalState initial_state ∧
    warnings s' = warnings initial_state ∧
    logged s' = logged initial_state ∧
    computeRegion s' = Some "cn-north-1".
Proof.
  exact (initializeComputeRegion_outcome cloud9_cn_env None None None initial_state).
Defined.

Lemma getComputeRegion_after_initialization_sample :
  let inCloud := isCloud9 alpha_cloud9_env any || isSageMaker alpha_cloud9_env in
  ¬ (inCloud = true
     ∧ ∃ identity, getInstanceIdentity (defaultMetadata alpha_cloud9_env) = inr identity
                   ∧ region identity = notInitialized) ∧
  ∃ s',
    initializeComputeRegion alpha_cloud9_env None None None initial_state
    = Fulfilled () s' ∧
    ∃ r, getComputeRegion s' = Fulfilled r s'.
Proof.
  intros inCloud.
  assert (¬ (inCloud = true
             ∧ ∃ identity,
                 getInstanceIdentity (defaultMetadata alpha_cloud9_env) = inr identity
                 ∧ region identity = notInitialized)) as Hmarker.
  { intros [_ (identity & [= <-] & Hregion)]. discriminate Hregion. }
  split; [exact Hmarker|].
  destruct (getComputeRegion_after_initialization alpha_cloud9_env None None None
              initial_state) as (s' & Hrun & _ & Hfulfils).
  exists s'. split; [exact Hrun|]. exact (proj2 Hfulfils Hmarker).
Defined.

Lemma isCn_after_initialization_sample :
  let inCloud := isCloud9 cloud9_cn_env any || isSageMaker cloud9_cn_env in
  ¬ (inCloud = true
     ∧ ∃ identity, getInstanceIdentity (defaultMetadata cloud9_cn_env) = inr identity
                   ∧ region identity = notInitialized) ∧
  ∃ s',
    initializeComputeRegion cloud9_cn_env None None None initial_state = Fulfilled () s' ∧
    isCn s' = Fulfilled true s'.
Proof.
  intros inCloud.
  assert (¬ (inCloud = true
             ∧ ∃ identity,
                 getInstanceIdentity (defaultMetadata cloud9_cn_env) = inr identity
                 ∧ region identity = notInitialized)) as Hmarker.
  { intros [_ (identity & [= <-] & Hregion)]. discriminate Hregion. }
  split; [exact Hmarker|].
  exact (isCn_after_initialization cloud9_cn_env None None None initial_state Hmarker).
Defined.

Lemma version_recorded_is_not_different_sample :
  "3.0.0" ≠ extensionVersion desktop_env ∧
  ∃ s',
    setMostRecentVersion desktop_env upgraded_state = Fulfilled () s' ∧
    globalState s' !! mostRecentVersionKey = Some "3.1.0" ∧
    isDifferentVersion desktop_env None s' = Fulfilled false s' ∧
    isDifferentVersion desktop_env (Some "3.0.0") s' = Fulfilled true s'.
Proof.
  assert ("3.0.0" ≠ extensionVersion desktop_env) as Hother by discriminate.
  split; [exact Hother|].
  destruct (version_recorded_is_not_different desktop_env upgraded_state)
    as (s' & Hset & Hstored & Hsame & Hdiff).
  exists s'. split; [exact Hset|]. split; [exact Hstored|]. split; [exact Hsame|].
  exact (Hdiff "3.0.0" Hother).
Defined.

Lemma showWelcomeMessage_alpha_warns_sample :
  codeCatalystDevEnvId alpha_env = None ∧
  installedVersion alpha_env = Some (extensionAlphaVersion alpha_env) ∧
  getIdeProperties alpha_env default_localize initial_state
  = Fulfilled {| shortName := "VS Code"; longName := "Visual Studio Code";
                 commandPalette := "Command Palette"; codelens := "CodeLens";
                 codelenses := "CodeLenses"; company := "AWS" |} initial_state ∧
  showWelcomeMessage alpha_env default_localize initial_state
  = Fulfilled ()
      {| computeRegion := Some notInitialized; globalState := ∅;
         warnings :=
           [ "AWS Toolkit PREVIEW. (To get the latest STABLE version, uninstall this version.)" ];
         logged := [] |}.
Proof.
  split; [reflexivity|]. split; [reflexivity|]. split; [reflexivity|].
  exact (showWelcomeMessage_alpha_warns default_localize alpha_env initial_state _
           eq_refl eq_refl eq_refl).
Defined.

Lemma showWelcomeMessage_footprint_sample :
  is_Some (codeCatalystDevEnvId forced_sagemaker_env) ∧
  showWelcomeMessage forced_sagemaker_env default_localize upgraded_state
  = Fulfilled () upgraded_state ∧
  "aws.telemetry" ≠ mostRecentVersionKey ∧
  globalState (world_of (showWelcomeMessage desktop_env default_localize upgraded_state))
    !! "aws.telemetry"
  = globalState upgraded_state !! "aws.telemetry".
Proof.
  assert (is_Some (codeCatalystDevEnvId forced_sagemaker_env)) as Hid
    by (eexists; reflexivity).
  assert ("aws.telemetry" ≠ mostRecentVersionKey) as Hkey by discriminate.
  split; [exact Hid|].
  split; [exact (proj1 (showWelcomeMessage_footprint default_localize forced_sagemaker_env
                          upgraded_state) Hid)|].
  split; [exact Hkey|].
  destruct (showWelcomeMessage_footprint default_localize desktop_env upgraded_state)
    as (_ & Hframe & _).
  exact (Hframe "aws.telemetry" Hkey).
Defined.

Lemma showWelcomeMessage_alpha_throws_sample :
  codeCatalystDevEnvId alpha_cloud9_env = None ∧
  installedVersion alpha_cloud9_env = Some (extensionAlphaVersion alpha_cloud9_env) ∧
  computeRegion initial_state = Some notInitialized ∧
  (getIdeType alpha_cloud9_env = cloud9 ∨ getIdeType alpha_cloud9_env = sagemaker) ∧
  showWelcomeMessage alpha_cloud9_env default_localize initial_state
  = Rejected "Attempted to get compute region without initializing." initial_state.
Proof.
  split; [reflexivity|]. split; [reflexivity|]. split; [reflexivity|].
  split; [left; reflexivity|].
  apply (showWelcomeMessage_alpha_throws default_localize alpha_cloud9_env initial_state);
    [reflexivity|reflexivity|reflexivity|left; reflexivity].
Defined.

End UtilityRuns.

(** ** The store on a memento that keeps references *)

Section SharedTheorems.
Import Notifications.
Import SharedRecords.

Implicit Types (this : NotificationInfoStore) (w : World) (m : Memento) (o : Ref).
Implicit Types (name k : string).

Ltac unfold_shared :=
  unfold run, void, addRecordToWorkplaceStore, addRecordToGlobalStore,
    setMuteStatusInWorkplaceStore, setMuteStatusInGlobalStore,
    addNewViewToNotificationInWorkplaceStore, addNewViewToNotificationInGlobalStore,
    getRecordFromGlobalStore, getRecordFromWorkplaceStore,
    orEmpty, getEmptyRecord, new_object, field, assign,
    mbind, promise_bind, await, mret, promise_ret, resolve,
    Date_getTime, memento_get, memento_update, enter, bind_entry.

Lemma faultless_head w :
  faultless w = true →
  fault (hd quiet (script w)) = None ∧
  faultless {| objects := objects w; allocated := allocated w; bindings := bindings w;
               clock := clock w + Z.of_N (elapsed (hd quiet (script w)));
               script := tl (script w); trace := trace w |} = true.
Proof.
  unfold faultless. destruct (script w) as [|t s]; simpl; [done|].
  destruct (fault t); simpl; [done|]. by intros ->.
Qed.

Lemma faultless_two_calls w :
  faultless w = true →
  fault (hd quiet (script w)) = None ∧ fault (hd quiet (tl (script w))) = None.
Proof.
  unfold faultless. destruct (script w) as [|t1 [|t2 s]]; simpl; try done.
  - by destruct (fault t1).
  - destruct (fault t1); [done|]. by destruct (fault t2).
Qed.

Lemma run_within this op w :
  within (op_memento this op) (StorageKey +:+ op_name w op) w (world_of (run this op w)).
Proof.
  destruct op; unfold within; unfold_shared; simpl;
    destruct (fault (hd quiet (script w))); simpl;
    try (match goal with |- context [bindings w ?m !! ?k] =>
           destruct (bindings w m !! k) as [bound|] eqn:Hbound end; simpl);
    try destruct (fault (hd quiet (tl (script w)))); simpl.
  all: split_and!.
  all: try (eexists; rewrite <- ?app_assoc; split; [reflexivity|];
            repeat constructor; done).
  all: try (intros m' k' Hne; try case_decide; subst;
            try (rewrite lookup_insert_ne; [done|congruence]); done).
  all: try (intros o' Hlt Hnot; repeat case_decide; subst; try done; try lia; congruence).
Qed.

Lemma addRecord_then_getRecord this (record : Ref) w :
  faultless w = true →
  let name := notificationName (objects w record) in
  (∃ w1 w2,
     addRecordToGlobalStore this record w = Fulfilled () w1 ∧
     getRecordFromGlobalStore this name w1 = Fulfilled (Some record) w2 ∧
     objects w2 record = objects w record) ∧
  (∃ w1 w2,
     addRecordToWorkplaceStore this record w = Fulfilled () w1 ∧
     getRecordFromWorkplaceStore this name w1 = Fulfilled (Some record) w2 ∧
     objects w2 record = objects w record).
Proof.
  intros [H1 H2]%faultless_two_calls name. unfold_shared. simpl.
  rewrite H1. simpl.
  split; (eexists; eexists; split; [reflexivity|]; simpl; rewrite H2; simpl;
          rewrite decide_True by done; by rewrite lookup_insert_eq).
Qed.

(** C6, as amended.  [addRecordTo*Store record] followed by
    [getRecordFrom*Store record.notificationName] yields the record that
    was added, fields unchanged, and every method, whether it fulfils or
    rejects, enters the host only for the key ["NOTIFICATION_INFO_" + name]
    of its memento and rebinds no other key.  On a memento that stores
    copies every other entry is as it was.  On a memento that keeps
    references every other key is bound to the object it was bound to, and
    no object has changed other than the one bound to the method's own
    key: another entry reads differently only if it holds that very
    object. *)
Theorem records_kept_under_prefixed_key :
  (∀ (this : NotificationInfoStore) (w : Notifications.World),
     (∀ record, Notifications.faultless w = true →
        (∃ w1 w2 : Notifications.World,
           Notifications.addRecordToGlobalStore this record w = Fulfilled () w1 ∧
           Notifications.getRecordFromGlobalStore this (notificationName record) w1
           = Fulfilled (Some record) w2) ∧
        (∃ w1 w2 : Notifications.World,
           Notifications.addRecordToWorkplaceStore this record w = Fulfilled () w1 ∧
           Notifications.getRecordFromWorkplaceStore this (notificationName record) w1
           = Fulfilled (Some record) w2)) ∧
     (∀ op, Notifications.within (Notifications.op_memento this op)
              ("NOTIFICATION_INFO_" +:+ Notifications.op_name op)
              w (world_of (Notifications.run this op w)))) ∧
  (∀ (this : NotificationInfoStore) (w : SharedRecords.World),
     (∀ record : Ref, faultless w = true →
        let name := notificationName (objects w record) in
        (∃ w1 w2,
           addRecordToGlobalStore this record w = Fulfilled () w1 ∧
           getRecordFromGlobalStore this name w1 = Fulfilled (Some record) w2 ∧
           objects w2 record = objects w record) ∧
        (∃ w1 w2,
           addRecordToWorkplaceStore this record w = Fulfilled () w1 ∧
           getRecordFromWorkplaceStore this name w1 = Fulfilled (Some record) w2 ∧
           objects w2 record = objects w record)) ∧
     (∀ op, within (op_memento this op) ("NOTIFICATION_INFO_" +:+ op_name w op)
              w (world_of (run this op w)))).
Proof.
  split.
  - intros this w. apply copies_kept_under_prefixed_key.
  - intros this w. split.
    + intros record Hw. by apply addRecord_then_getRecord.
    + intros op. apply run_within.
Qed.


End SharedTheorems.

Section SharedRuns.
Import Notifications.
Import SharedRecords.

(** C6 as the spec words it does not hold on a memento that keeps
    references.  One record object is added to the global and to the
    workplace memento; [setMuteStatusInWorkplaceStore "welcome" false] then
    changes what the global memento holds under its key, a key the call
    was not made for. *)
Lemma shared_record_breaks_the_frame :
  let key := StorageKey +:+ "welcome" in
  ∃ w1 w2 w3,
    addRecordToGlobalStore sample_store 0%nat unbound_world = Fulfilled () w1 ∧
    addRecordToWorkplaceStore sample_store 0%nat w1 = Fulfilled () w2 ∧
    setMuteStatusInWorkplaceStore sample_store "welcome" false w2 = Fulfilled () w3 ∧
    (globalStore sample_store, key) ≠ (workplaceStore sample_store, key) ∧
    entry w2 (globalStore sample_store) key = Some sample_record ∧
    entry w3 (globalStore sample_store) key = Some (set_muted false sample_record) ∧
    entry w3 (globalStore sample_store) key ≠ entry w2 (globalStore sample_store) key.
Proof.
  intros key.
  set (w1 := world_of (addRecordToGlobalStore sample_store 0%nat unbound_world)).
  set (w2 := world_of (addRecordToWorkplaceStore sample_store 0%nat w1)).
  set (w3 := world_of (setMuteStatusInWorkplaceStore sample_store "welcome" false w2)).
  exists w1, w2, w3. split_and!; by vm_compute.
Qed.

Lemma records_kept_under_prefixed_key_sample :
  Notifications.faultless fresh_world = true ∧
  faultless unbound_world = true ∧
  (∃ w1 w2 : Notifications.World,
     Notifications.addRecordToGlobalStore sample_store sample_record fresh_world
     = Fulfilled () w1 ∧
     Notifications.getRecordFromGlobalStore sample_store (notificationName sample_record) w1
     = Fulfilled (Some sample_record) w2) ∧
  (∃ w1 w2,
     addRecordToGlobalStore sample_store 0%nat unbound_world = Fulfilled () w1 ∧
     getRecordFromGlobalStore sample_store
       (notificationName (objects unbound_world 0%nat)) w1
     = Fulfilled (Some 0%nat) w2 ∧
     objects w2 0%nat = objects unbound_world 0%nat) ∧
  Notifications.within (workplaceStore sample_store) ("NOTIFICATION_INFO_" +:+ "welcome")
    fresh_world
    (world_of (Notifications.run sample_store
                 (Notifications.SetMuteStatusInWorkplaceStore "welcome" false)
                 fresh_world)) ∧
  within (workplaceStore sample_store) ("NOTIFICATION_INFO_" +:+ "welcome") aliased_world
    (world_of (run sample_store (SetMuteStatusInWorkplaceStore "welcome" false)
                 aliased_world)).
Proof.
  destruct records_kept_under_prefixed_key as [Hcopies Hshared].
  destruct (Hcopies sample_store fresh_world) as [Hround Hfoot].
  destruct (Hshared sample_store unbound_world) as [Hround' _].
  destruct (Hshared sample_store aliased_world) as [_ Hfoot'].
  split; [reflexivity|]. split; [reflexivity|].
  split; [exact (proj1 (Hround sample_record eq_refl))|].
  split; [exact (proj1 (Hround' 0%nat eq_refl))|].
  split; [exact (Hfoot (Notifications.SetMuteStatusInWorkplaceStore "welcome" false))|].
  exact (Hfoot' (SetMuteStatusInWorkplaceStore "welcome" false)).
Defined.


End SharedRuns.
